(** * Market Overview API (main.py): a shallow embedding and its properties

    The service is glue around three outside parties: the equity screener
    and the per-ticker quote/news service, an SMTP server, and a
    spreadsheet.  Each of them is a parameter of the model: a function that
    either returns a value or raises.  Python's [try]/[except] is the
    [try_except] of a small exception monad, a [dict] is an association
    list in insertion order, a float is the rational it denotes and its
    arithmetic rounds to binary64 (no NaN, no infinity). *)

From Stdlib Require Import List String Ascii Bool Arith ZArith QArith Qround Lia.
From Stdlib Require Import Sorting.Sorted Sorting.Permutation.
Import ListNotations.

Local Open Scope string_scope.
Local Open Scope list_scope.

(** ** Exceptions *)

Module Exc.

(** The outcome of a Python expression: a value, or a raised exception
    with its message. *)
Inductive exc (A : Type) : Type :=
| Returns (a : A)
| Raises (msg : string).
Arguments Returns {A} a.
Arguments Raises {A} msg.

Definition ret {A} (a : A) : exc A := Returns a.

Definition bind {A B} (c : exc A) (k : A -> exc B) : exc B :=
  match c with
  | Returns a => k a
  | Raises m => Raises m
  end.

(** [try: body / except Exception as e: handler e] *)
Definition try_except {A} (body : exc A) (handler : string -> exc A) : exc A :=
  match body with
  | Returns a => Returns a
  | Raises m => handler m
  end.

Definition raises {A} (c : exc A) : bool :=
  match c with Returns _ => false | Raises _ => true end.

(** [for a in l: body], threading the loop state; an exception that
    escapes the body ends the loop. *)
Fixpoint for_each {A S} (l : list A) (body : S -> A -> exc S) (s : S) : exc S :=
  match l with
  | [] => ret s
  | a :: l' => bind (body s a) (for_each l' body)
  end.

End Exc.
Export Exc.

Declare Scope exc_scope.
Delimit Scope exc_scope with exc.
Notation "x <- c ;; k" := (bind c (fun x => k))
  (at level 61, c at next level, right associativity) : exc_scope.
Local Open Scope exc_scope.

(** ** Top gainers and losers (fetch_top_stocks) *)

Module Screener.

Local Open Scope Q_scope.

(** One row of the data frame the screener answers with.  The columns the
    function reads are [symbol], [regularMarketPrice.raw],
    [regularMarketChangePercent.raw] and [regularMarketVolume.raw]; market
    capitalisation and region are the columns the query filters on. *)
Record equity : Type := mkEquity {
  symbol : string;
  regularMarketPrice : Q;
  regularMarketChangePercent : Q;
  regularMarketVolume : Z;
  marketCap : Q;
  region : string
}.

(** A query filter, [[op, [field, operand]]]. *)
Inductive operator : Type := op_gt | op_lt | op_eq.
Inductive operand : Type := Num (q : Q) | Str (s : string).
Record query_filter : Type := mkFilter {
  f_op : operator;
  f_field : string;
  f_operand : operand
}.

(** The record of one returned row,
    [to_dict(orient="records")] over the four selected columns. *)
Record stock_row : Type := mkRow {
  r_symbol : string;
  r_price : Q;
  r_percentChange : Q;
  r_volume : Z
}.

Definition to_record (e : equity) : stock_row :=
  mkRow (symbol e) (regularMarketPrice e) (regularMarketChangePercent e)
        (regularMarketVolume e).

Definition Qlt_bool (a b : Q) : bool := negb (Qle_bool b a).

(** [DataFrame.sort_values(col, ascending=asc)]: insertion into a sorted
    prefix, by the change-percent column.  Rows with equal keys keep their
    order here; the library does not promise an order for them. *)
Definition before (ascending : bool) (a b : equity) : bool :=
  if ascending
  then Qle_bool (regularMarketChangePercent a) (regularMarketChangePercent b)
  else Qle_bool (regularMarketChangePercent b) (regularMarketChangePercent a).

Fixpoint insert_row (ascending : bool) (e : equity) (l : list equity) : list equity :=
  match l with
  | [] => [e]
  | x :: l' => if before ascending e x then e :: x :: l'
               else x :: insert_row ascending e l'
  end.

Fixpoint sort_values (ascending : bool) (l : list equity) : list equity :=
  match l with
  | [] => []
  | x :: l' => insert_row ascending x (sort_values ascending l')
  end.

(** [if region_filter:] is Python truthiness: [None] and the empty string
    are both false. *)
Definition truthy (region_filter : option string) : bool :=
  match region_filter with
  | None => false
  | Some r => negb (String.eqb r "")
  end.

Definition is_None (region_filter : option string) : bool :=
  match region_filter with None => true | Some _ => false end.

(** The filter list built on lines 51-65. *)
Definition build_filters (region_filter : option string) (gainers : bool) : list query_filter :=
  let filters := [] in
  let filters :=
    if gainers then filters ++ [mkFilter op_gt "percentchange" (Num 3)]
    else filters ++ [mkFilter op_lt "percentchange" (Num (-2.5))] in
  let market_cap_threshold := if is_None region_filter then 2e9 else 1e9 in
  let price_threshold := if is_None region_filter then 5 else 10 in
  let filters := filters ++ [mkFilter op_gt "intradaymarketcap" (Num market_cap_threshold)] in
  let filters := filters ++ [mkFilter op_gt "intradayprice" (Num price_threshold)] in
  let filters := filters ++ [mkFilter op_gt "dayvolume" (Num 1000)] in
  match region_filter with
  | Some r => if truthy region_filter
              then filters ++ [mkFilter op_eq "region" (Str r)]
              else filters
  | None => filters
  end.

Section WithScreener.

(** [yfs.get_data(yfs.create_payload("equity", yfs.create_query(filters)))]:
    the screening endpoint, which answers a filter list with a data
    frame or raises. *)
Variable get_data : list query_filter -> exc (list equity).

(** Lines 51-72 up to [head(5)]: the selected rows of the frame. *)
Definition top_frame (region_filter : option string) (gainers : bool)
  : exc (list equity) :=
  let filters := build_filters region_filter gainers in
  data <- get_data filters ;;
  let data_sorted := sort_values (negb gainers) data in
  ret (firstn 5 data_sorted).

Definition fetch_top_stocks (region_filter : option string) (gainers : bool)
  : exc (list stock_row) :=
  try_except
    (top <- top_frame region_filter gainers ;;
     ret (map to_record top))
    (fun e => ret []).

End WithScreener.

(** *** What the screening endpoint promises

    The meaning of a filter on a row, as the endpoint evaluates it. *)
Definition field_value (e : equity) (field : string) : option operand :=
  if String.eqb field "percentchange" then Some (Num (regularMarketChangePercent e))
  else if String.eqb field "intradaymarketcap" then Some (Num (marketCap e))
  else if String.eqb field "intradayprice" then Some (Num (regularMarketPrice e))
  else if String.eqb field "dayvolume" then Some (Num (inject_Z (regularMarketVolume e)))
  else if String.eqb field "region" then Some (Str (region e))
  else None.

Definition matches (e : equity) (f : query_filter) : bool :=
  match f_op f, field_value e (f_field f), f_operand f with
  | op_gt, Some (Num x), Num y => Qlt_bool y x
  | op_lt, Some (Num x), Num y => Qlt_bool x y
  | op_eq, Some (Num x), Num y => Qeq_bool x y
  | op_eq, Some (Str x), Str y => String.eqb x y
  | _, _, _ => false
  end.

(** An endpoint honours its queries when every row it answers with
    matches every filter it was sent. *)
Definition honours (get_data : list query_filter -> exc (list equity)) : Prop :=
  forall q rows, get_data q = Returns rows ->
    Forall (fun e => forallb (matches e) q = true) rows.

(** The endpoint over a fixed universe of equities: it answers with the
    rows that match. *)
Definition screen (universe : list equity) (q : list query_filter) : exc (list equity) :=
  Returns (filter (fun e => forallb (matches e) q) universe).

End Screener.


(** ** Python dictionaries and strings *)

Module PyDict.

(** A [dict] with string keys, in insertion order.  Assigning to a key
    that is present replaces its value in place; assigning to a new key
    appends it. *)
Definition dict (V : Type) : Type := list (string * V).

Fixpoint get {V} (d : dict V) (k : string) : option V :=
  match d with
  | [] => None
  | (k', v) :: d' => if String.eqb k' k then Some v else get d' k
  end.

(** [d.get(k, default)] *)
Definition get_default {V} (d : dict V) (k : string) (default : V) : V :=
  match get d k with Some v => v | None => default end.

(** [d[k] = v] *)
Fixpoint set {V} (d : dict V) (k : string) (v : V) : dict V :=
  match d with
  | [] => [(k, v)]
  | (k', v') :: d' => if String.eqb k' k then (k', v) :: d'
                      else (k', v') :: set d' k v
  end.

Definition keys {V} (d : dict V) : list string := map fst d.
Definition items {V} (d : dict V) : list (string * V) := d.

(** [dict(pairs)]: later pairs win, a key stays where it first appeared. *)
Definition of_pairs {V} (pairs : list (string * V)) : dict V :=
  fold_left (fun d kv => set d (fst kv) (snd kv)) pairs [].

End PyDict.

Module PyStr.

Definition is_upper (c : ascii) : bool :=
  (65 <=? nat_of_ascii c)%nat && (nat_of_ascii c <=? 90)%nat.
Definition is_lower (c : ascii) : bool :=
  (97 <=? nat_of_ascii c)%nat && (nat_of_ascii c <=? 122)%nat.
Definition upper (c : ascii) : ascii :=
  if is_lower c then ascii_of_nat (nat_of_ascii c - 32) else c.
Definition lower (c : ascii) : ascii :=
  if is_upper c then ascii_of_nat (nat_of_ascii c + 32) else c.

(** [s.replace("_", " ")] *)
Fixpoint replace_underscores (s : string) : string :=
  match s with
  | EmptyString => EmptyString
  | String c s' =>
      String (if Ascii.eqb c "_"%char then " "%char else c) (replace_underscores s')
  end.

(** [s.title()] on ASCII text: a letter that follows a letter is lowered,
    any other letter is raised. *)
Fixpoint title_from (previous_is_cased : bool) (s : string) : string :=
  match s with
  | EmptyString => EmptyString
  | String c s' =>
      let cased := is_upper c || is_lower c in
      String (if cased then (if previous_is_cased then lower c else upper c) else c)
             (title_from cased s')
  end.

Definition title (s : string) : string := title_from false s.

(** Truthiness of a string: [if s:] *)
Definition nonempty (s : string) : bool := negb (String.eqb s "").

End PyStr.

(** ** Index snapshots (fetch_indian_indices) *)

Module Indices.
Import PyDict PyStr.

Local Open Scope Q_scope.

(** One bar of [ticker.history(period="2d")]. *)
Record bar : Type := mkBar { Close : Q; Volume : Z }.

(** The history frame: its rows, and whether it has a [Volume] column. *)
Record data_frame : Type := mkFrame {
  rows : list bar;
  has_volume_column : bool
}.

Inductive status : Type := live_data | no_data | error.

Record snapshot : Type := mkSnapshot {
  sn_symbol : string;
  sn_name : string;
  current_price : option Q;
  previous_close : option Q;
  change : option Q;
  change_percent : option Q;
  volume : option Z;
  sn_status : status
}.

(** The null-filled entry of lines 171-180 and 185-194. *)
Definition blank (symbol index_name : string) (st : status) : snapshot :=
  mkSnapshot symbol (title (replace_underscores index_name))
             None None None None None st.

Definition INDIAN_INDICES : dict string :=
  [ ("nifty", "^NSEI");
    ("sensex", "^BSESN");
    ("banknifty", "^NSEBANK");
    ("midcap_nifty", "NIFTYMIDCAP50.NS") ].

(** [series.iloc[-k]], an IndexError when the series is too short. *)
Definition iloc_from_end {A} (series : list A) (k : nat) : exc A :=
  match nth_error (rev series) (k - 1) with
  | Some a => Returns a
  | None => Raises "single positional indexer is out-of-bounds"
  end.

(** Nearest integer, ties to the even one. *)
Definition round_half_even (x : Q) : Z :=
  let f := Qfloor x in
  match Qcompare (x - inject_Z f) (1 # 2) with
  | Lt => f
  | Gt => (f + 1)%Z
  | Eq => if Z.even f then f else (f + 1)%Z
  end.

(** *** Float arithmetic

    A float is the rational it denotes.  Every operation of the code is
    the exact operation followed by rounding to binary64: 53 bits of
    mantissa, nearest value, ties to the even mantissa, subnormals below
    2^-1022.  NaN, the infinities, the sign of zero and overflow are not
    represented. *)

Definition pow2 (e : Z) : Q :=
  if (0 <=? e)%Z then inject_Z (2 ^ e) else 1 # Z.to_pos (2 ^ (- e)).

(** The integer part of the binary logarithm of a positive rational. *)
Definition floor_log2 (a : Q) : Z :=
  let k := (Z.log2 (Qnum a) - Z.log2 (Zpos (Qden a)))%Z in
  if Qle_bool (pow2 k) a then k else (k - 1)%Z.

(** The binary64 value nearest to [q]. *)
Definition float64 (q : Q) : Q :=
  if Qeq_bool q 0 then 0
  else
    let a := if Qle_bool 0 q then q else - q in
    let e := Z.max (floor_log2 a - 52) (-1074) in
    let m := round_half_even (a / pow2 e) in
    Qred (inject_Z (if Qle_bool 0 q then m else (- m)%Z) * pow2 e).

Definition fsub (a b : Q) : Q := float64 (a - b).
Definition fmul (a b : Q) : Q := float64 (a * b).
Definition fdiv (a b : Q) : Q := float64 (a / b).

(** Division, which faults on a zero divisor. *)
Definition divide (a b : Q) : exc Q :=
  if Qeq_bool b 0 then Raises "division by zero" else Returns (fdiv a b).

(** [round(float(x), 2)]: the decimal with two places nearest to the value
    of [x], ties to the even last digit, read back as a float. *)
Definition round2 (x : Q) : Q := float64 (round_half_even (x * 100) # 100).

Definition len (hist : data_frame) : nat := List.length (rows hist).
Definition empty (hist : data_frame) : bool :=
  match rows hist with [] => true | _ => false end.

Section WithTicker.

(** [yf.Ticker(symbol).history(period="2d")] *)
Variable history : string -> exc data_frame.
(** The [/] of line 152.  It is [divide] in the running program; it is a
    parameter here so that a property can say that a run does not depend
    on what a division would do. *)
Variable true_divide : Q -> Q -> exc Q.

(** The body of the loop, lines 140-195: the dictionary after the
    iteration for one index. *)
Definition index_step (indices_data : dict snapshot) (entry : string * string)
  : exc (dict snapshot) :=
  let (index_name, symbol) := entry in
  try_except
    (hist <- history symbol ;;
     if negb (empty hist) && (1 <=? len hist)%nat then
       current_price <- iloc_from_end (map Close (rows hist)) 1 ;;
       pcc <- (if (2 <=? len hist)%nat then
                 prev_close <- iloc_from_end (map Close (rows hist)) 2 ;;
                 let change := fsub current_price prev_close in
                 change_percent <-
                   (if negb (Qeq_bool prev_close 0)
                    then q <- true_divide change prev_close ;; ret (fmul q 100)
                    else ret 0) ;;
                 ret (prev_close, change, change_percent)
               else
                 ret (current_price, 0, 0)) ;;
       let '(prev_close, change, change_percent) := pcc in
       vol <- (if has_volume_column hist && negb (empty hist)
               then iloc_from_end (map Volume (rows hist)) 1
               else ret 0%Z) ;;
       ret (set indices_data index_name
              (mkSnapshot symbol (title (replace_underscores index_name))
                 (Some (round2 current_price))
                 (Some (round2 prev_close))
                 (Some (round2 change))
                 (Some (round2 change_percent))
                 (Some vol)
                 live_data))
     else
       ret (set indices_data index_name (blank symbol index_name no_data)))
    (fun e => ret (set indices_data index_name (blank symbol index_name error))).

Definition fetch_indian_indices : exc (dict snapshot) :=
  try_except
    (let indices_data := [] in
     indices_data <- for_each (items INDIAN_INDICES) index_step indices_data ;;
     ret indices_data)
    (fun e => ret []).

End WithTicker.

End Indices.

(** ** News (fetch_global_news, fetch_indian_news) *)

Module News.

(** An article of [ticker.news], with the nested fields the code reads.
    [None] is a key that is missing.  A key that is present with a null
    value is not represented: for [content], [provider] or [canonicalUrl]
    the chained lookup of the code raises on it, which for the caller is
    the case of a request that raises. *)
Record canonical_url : Type := mkUrl {
  url : option string;
  url_region : option string
}.
Record provider_info : Type := mkProvider { displayName : option string }.
Record content_info : Type := mkContent {
  title : option string;
  provider : option provider_info;
  canonicalUrl : option canonical_url
}.
Record article : Type := mkArticle { content : option content_info }.

(** A returned item; [item_symbol] is absent from global news. *)
Record news_item : Type := mkItem {
  item_symbol : option string;
  item_title : string;
  item_publisher : string;
  item_link : string
}.

Definition or_default {A} (field : option A) (default : A) : A :=
  match field with Some a => a | None => default end.

(** [article.get("content", {})] and the three nested lookups of lines
    220-223 (and 88-92). *)
Definition content_of (a : article) : content_info :=
  or_default (content a) (mkContent None None None).
Definition title_of (a : article) : string :=
  or_default (title (content_of a)) "Title not found".
Definition publisher_of (a : article) : string :=
  or_default (displayName (or_default (provider (content_of a)) (mkProvider None)))
             "Unknown".
Definition link_of (a : article) : string :=
  or_default (url (or_default (canonicalUrl (content_of a)) (mkUrl None None)))
             "No link".

Definition mem (x : string) (s : list string) : bool :=
  existsb (String.eqb x) s.

(** The loop state of fetch_indian_news. *)
Record news_state : Type := mkState {
  news_results : list news_item;
  seen_links : list string;
  successful_symbols : nat
}.

Section WithTicker.

(** [yf.Ticker(symbol).news] *)
Variable news : string -> exc (list article).

Definition fetch_global_news : exc (list news_item) :=
  try_except
    (articles <- news "^GSPC" ;;
     let global_news :=
       fold_left
         (fun acc a => acc ++ [mkItem None (title_of a) (publisher_of a) (link_of a)])
         articles [] in
     ret (firstn 5 global_news))
    (fun e => ret []).

(** The inner loop over [news_articles], lines 219-232. *)
Definition add_article (symbol : string) (st : news_state) (a : article) : news_state :=
  let title := title_of a in
  let publisher := publisher_of a in
  let link := link_of a in
  if negb (mem link (seen_links st))
  then mkState (news_results st ++ [mkItem (Some symbol) title publisher link])
               (link :: seen_links st)
               (successful_symbols st)
  else st.

(** One iteration of the loop over the symbols, lines 212-235. *)
Definition symbol_step (st : news_state) (symbol : string) : exc news_state :=
  try_except
    (articles <- news symbol ;;
     let news_articles := firstn 1 articles in
     let st :=
       match news_articles with
       | [] => st
       | _ => mkState (news_results st) (seen_links st) (S (successful_symbols st))
       end in
     ret (fold_left (add_article symbol) news_articles st))
    (fun e => ret st).

Definition fetch_indian_news (symbols : list string) : exc (list news_item) :=
  try_except
    (st <- for_each symbols symbol_step (mkState [] [] 0) ;;
     ret (news_results st))
    (fun e => ret []).

End WithTicker.

Definition indian_symbols : list string :=
  [ "RELIANCE.NS"; "TCS.NS"; "HDFCBANK.NS"; "INFY.NS"; "ICICIBANK.NS";
    "LT.NS"; "SBIN.NS"; "AXISBANK.NS"; "KOTAKBANK.NS"; "HINDUNILVR.NS";
    "ITC.NS"; "BAJFINANCE.NS"; "BHARTIARTL.NS"; "ASIANPAINT.NS";
    "ULTRACEMCO.NS"; "MARUTI.NS"; "NESTLEIND.NS"; "COALINDIA.NS";
    "POWERGRID.NS"; "ONGC.NS" ].

End News.

(** ** Form relay (send_email, add_to_google_sheet, submit_form) *)

Module FormRelay.
Import PyDict PyStr.

(** *** Time *)

Record datetime : Type := mkDatetime {
  year : nat; month : nat; day : nat;
  hour : nat; minute : nat; second : nat; microsecond : nat
}.

Definition digit (n : nat) : ascii := ascii_of_nat (48 + n mod 10).

Fixpoint zero_padded (width n : nat) : string :=
  match width with
  | O => ""
  | S w => zero_padded w (n / 10) ++ String (digit n) ""
  end.

(** [d.isoformat()] *)
Definition isoformat (d : datetime) : string :=
  zero_padded 4 (year d) ++ "-" ++ zero_padded 2 (month d) ++ "-" ++
  zero_padded 2 (day d) ++ "T" ++ zero_padded 2 (hour d) ++ ":" ++
  zero_padded 2 (minute d) ++ ":" ++ zero_padded 2 (second d) ++
  (if (microsecond d =? 0)%nat then "" else "." ++ zero_padded 6 (microsecond d)).

(** [d.strftime("%Y-%m-%d %H:%M:%S")] *)
Definition strftime (d : datetime) : string :=
  zero_padded 4 (year d) ++ "-" ++ zero_padded 2 (month d) ++ "-" ++
  zero_padded 2 (day d) ++ " " ++ zero_padded 2 (hour d) ++ ":" ++
  zero_padded 2 (minute d) ++ ":" ++ zero_padded 2 (second d).

(** *** The world the handlers act on *)

(** The message handed to the SMTP server.  The HTML body is kept by its
    variable parts: the rows of the table and the footer time. *)
Record message : Type := mkMessage {
  msg_from : string;
  msg_to : string;
  msg_subject : string;
  table_rows : list (string * string);
  submitted_at : string
}.

Definition worksheet : Type := list (list string).

Record world : Type := mkWorld {
  ticks : nat;                      (* readings of the clock so far *)
  outbox : list message;            (* messages the SMTP server accepted *)
  sheet : worksheet                 (* the rows of sheet1 *)
}.

(** State and exceptions: a raised exception keeps the effects done
    before it. *)
Definition eff (A : Type) : Type := world -> exc A * world.

Definition eret {A} (a : A) : eff A := fun w => (Returns a, w).

Definition ebind {A B} (c : eff A) (k : A -> eff B) : eff B :=
  fun w => match c w with
           | (Returns a, w') => k a w'
           | (Raises m, w') => (Raises m, w')
           end.

Definition etry {A} (body : eff A) (handler : string -> eff A) : eff A :=
  fun w => match body w with
           | (Returns a, w') => (Returns a, w')
           | (Raises m, w') => handler m w'
           end.

Definition lift {A} (c : exc A) : eff A := fun w => (c, w).

Definition modify (f : world -> world) : eff unit := fun w => (Returns tt, f w).

Declare Scope eff_scope.
Delimit Scope eff_scope with eff.
Notation "x <- c ;; k" := (ebind c (fun x => k))
  (at level 61, c at next level, right associativity) : eff_scope.
Notation "c ;;; k" := (ebind c (fun _ => k))
  (at level 61, right associativity) : eff_scope.
Local Open Scope eff_scope.

Record email_config : Type := mkEmailConfig {
  smtp_server : string;
  smtp_port : nat;
  email : string;
  password : string
}.

(** What the SMTP server does with each request of a session. *)
Record smtp_service : Type := mkSmtp {
  connect : string -> nat -> exc unit;
  starttls : exc unit;
  login : string -> string -> exc unit;
  send_message : message -> exc unit;
  quit : exc unit
}.

(** *** The worksheet operations of the spreadsheet client *)

(** The values of the sheet as the client reads them: every row padded
    with empty cells to the width of the longest row. *)
Definition max_width (sh : worksheet) : nat :=
  fold_right (fun row n => Nat.max (List.length row) n) 0%nat sh.

Definition pad (width : nat) (row : list string) : list string :=
  row ++ repeat "" (width - List.length row)%nat.

(** [len(keys) == len(set(keys))] *)
Fixpoint distinct (keys : list string) : bool :=
  match keys with
  | [] => true
  | k :: keys' => negb (existsb (String.eqb k) keys') && distinct keys'
  end.

(** [sheet.get_all_records()]: no record for an empty sheet; otherwise the
    first row, padded, gives the keys, which must be pairwise distinct, and
    every row below it is zipped with the keys, its cells passed through
    the client's [numericise]. *)
Definition get_all_records {cell : Type} (numericise : string -> cell)
  : eff (list (dict cell)) :=
  fun w =>
    match sheet w with
    | [] => (Returns [], w)
    | header :: values =>
        let width := max_width (sheet w) in
        let keys := pad width header in
        if distinct keys then
          (Returns (map (fun row =>
                           of_pairs (combine keys (map numericise (pad width row))))
                        values), w)
        else (Raises "the header row in the worksheet is not unique", w)
    end.

(** [sheet.row_values(n)], rows counted from 1. *)
Definition row_values (n : nat) : eff (list string) :=
  fun w => (Returns (nth (n - 1) (sheet w) []), w).

Definition with_sheet (w : world) (sh : worksheet) : world :=
  mkWorld (ticks w) (outbox w) sh.

(** [sheet.insert_row(values, index)] *)
Definition insert_row (values : list string) (index : nat) : eff unit :=
  modify (fun w => with_sheet w
    (firstn (index - 1) (sheet w) ++ values :: skipn (index - 1) (sheet w))).

(** [sheet.delete_rows(index)] *)
Definition delete_rows (index : nat) : eff unit :=
  modify (fun w => with_sheet w
    (firstn (index - 1) (sheet w) ++ skipn index (sheet w))).

(** [sheet.append_row(values)] *)
Definition append_row (values : list string) : eff unit :=
  modify (fun w => with_sheet w (sheet w ++ [values])).

(** *** JSON bodies *)

Inductive json : Type :=
| JBool (b : bool)
| JStr (s : string)
| JObj (fields : dict string).

Inductive http_response : Type :=
| OK (body : dict json)
| HTTPException (status_code : nat) (detail : string).

Section WithEnvironment.

(** The configuration read from the process environment at start-up. *)
Variable EMAIL_CONFIG : email_config.
(** [os.getenv("GOOGLE_SERVICE_ACCOUNT_JSON")] and [os.path.exists]. *)
Variable service_account_path : option string.
Variable path_exists : string -> bool.
(** [gspread.service_account(...)] followed by [open_by_key(...).sheet1]. *)
Variable open_sheet : exc unit.
(** The conversion of a cell text to a number or a string that the
    spreadsheet client applies to the records it reads. *)
Variable cell : Type.
Variable numericise : string -> cell.
(** The SMTP server, and the readings of [datetime.now()] in order. *)
Variable smtp : smtp_service.
Variable clock : nat -> datetime.

Definition datetime_now : eff datetime :=
  fun w => (Returns (clock (ticks w)), mkWorld (S (ticks w)) (outbox w) (sheet w)).

(** [server.send_message(msg)]: an accepted message lands in the outbox. *)
Definition deliver (msg : message) : eff unit :=
  fun w => match send_message smtp msg with
           | Returns _ => (Returns tt, mkWorld (ticks w) (outbox w ++ [msg]) (sheet w))
           | Raises m => (Raises m, w)
           end.

Definition send_email (subject : string) (form_data : dict string) : eff bool :=
  etry
    (let table_rows :=
       fold_left
         (fun rows kv =>
            let formatted_key := title (replace_underscores (fst kv)) in
            rows ++ [(formatted_key, snd kv)])
         (items form_data) [] in
     now <- datetime_now ;;
     let msg := mkMessage "akash.yadavv181198@gmail.com" "support@aadhaarcapital.com"
                          subject table_rows (strftime now) in
     lift (connect smtp (smtp_server EMAIL_CONFIG) (smtp_port EMAIL_CONFIG)) ;;;
     lift (starttls smtp) ;;;
     if nonempty (password EMAIL_CONFIG) then
       lift (login smtp (email EMAIL_CONFIG) (password EMAIL_CONFIG)) ;;;
       deliver msg ;;;
       lift (quit smtp) ;;;
       eret true
     else
       eret false)
    (fun e => eret false).

Definition add_to_google_sheet (form_data : dict string) : eff bool :=
  etry
    (match service_account_path with
     | Some path =>
         if nonempty path && path_exists path then
           lift open_sheet ;;;
           existing_records <- get_all_records numericise ;;
           headers <-
             (if (List.length existing_records =? 0)%nat then
                let headers := keys form_data in
                insert_row headers 1 ;;;
                eret headers
              else
                headers <- row_values 1 ;;
                let new_fields :=
                  filter (fun key => negb (existsb (String.eqb key) headers))
                         (keys form_data) in
                match new_fields with
                | [] => eret headers
                | _ =>
                    let headers := headers ++ new_fields in
                    insert_row headers 1 ;;;
                    delete_rows 2 ;;;
                    eret headers
                end) ;;
           let row_data := map (fun header => get_default form_data header "") headers in
           append_row row_data ;;;
           eret true
         else eret false
     | None => eret false
     end)
    (fun e => eret false).

(** [form.items()] of the parsed request body: one value per field name,
    the last one submitted. *)
Definition form_items (fields : list (string * string)) : list (string * string) :=
  items (of_pairs fields).

(** The dictionary of lines 433-438. *)
Definition relayed_data (fields : list (string * string)) (now : datetime)
  : dict string :=
  let form_data :=
    fold_left
      (fun form_data kv =>
         set form_data (fst kv) (if nonempty (snd kv) then snd kv else "Not provided"))
      (form_items fields) [] in
  set form_data "timestamp" (isoformat now).

(** The handler; [form] is what [await request.form()] does: it returns
    the fields of the body or raises. *)
Definition submit_form (form : exc (list (string * string))) : eff http_response :=
  etry
    (fields <- lift form ;;
     now <- datetime_now ;;
     let form_data := relayed_data fields now in
     let subject := get_default form_data "subject" "Aadhar Capital Website Enquiry" in
     email_sent <- send_email subject form_data ;;
     now' <- datetime_now ;;
     eret (OK [ ("success", JBool true);
                ("message", JStr "Form submitted successfully");
                ("email_sent", JBool email_sent);
                ("timestamp", JStr (isoformat now'));
                ("data", JObj form_data) ]))
    (fun e => eret (HTTPException 500 ("Failed to submit form: " ++ e))).

End WithEnvironment.

End FormRelay.

(** ** The HTTP surface (market_summary, health_check) *)

Module HttpSurface.
Import PyDict PyStr.

(** The [data] object of the summary.  An index entry is read with
    [indian_indices.get(key, {})]: [None] stands for the empty object. *)
Record market_data : Type := mkMarketData {
  indian_indices : dict (option Indices.snapshot);
  top5_gainers_global : list Screener.stock_row;
  top5_losers_global : list Screener.stock_row;
  top5_gainers_india : list Screener.stock_row;
  top5_losers_india : list Screener.stock_row;
  global_news : list News.news_item;
  india_news : list News.news_item
}.

Record summary : Type := mkSummary {
  success : bool;
  data : market_data;
  timestamp : string
}.

Inductive summary_response : Type :=
| SummaryOK (body : summary)
| SummaryHTTPException (status_code : nat) (detail : string).

Section WithServices.

Variable get_data : list Screener.query_filter -> exc (list Screener.equity).
Variable history : string -> exc Indices.data_frame.
Variable news : string -> exc (list News.article).
(** The reading of [datetime.now()] on line 417. *)
Variable now : FormRelay.datetime.

Definition market_summary : summary_response :=
  match
    (indian_indices <- Indices.fetch_indian_indices history Indices.divide ;;
     top5_gainers_global <- Screener.fetch_top_stocks get_data None true ;;
     top5_losers_global <- Screener.fetch_top_stocks get_data None false ;;
     top5_gainers_india <- Screener.fetch_top_stocks get_data (Some "in") true ;;
     top5_losers_india <- Screener.fetch_top_stocks get_data (Some "in") false ;;
     global_news <- News.fetch_global_news news ;;
     indian_news <- News.fetch_indian_news news News.indian_symbols ;;
     ret (mkSummary true
            (mkMarketData
               [ ("nifty", get indian_indices "nifty");
                 ("sensex", get indian_indices "sensex");
                 ("banknifty", get indian_indices "banknifty");
                 ("midcap_nifty", get indian_indices "midcap_nifty") ]
               top5_gainers_global top5_losers_global
               top5_gainers_india top5_losers_india
               global_news indian_news)
            (FormRelay.isoformat now)))
  with
  | Returns body => SummaryOK body
  | Raises e => SummaryHTTPException 500 ("Failed to fetch market data: " ++ e)
  end.

End WithServices.

Definition health_check (EMAIL_CONFIG : FormRelay.email_config)
           (GOOGLE_SHEET_ID : string) (now : FormRelay.datetime)
  : dict FormRelay.json :=
  [ ("status", FormRelay.JStr "healthy");
    ("email_configured", FormRelay.JBool (nonempty (FormRelay.password EMAIL_CONFIG)));
    ("google_sheets_id", FormRelay.JStr GOOGLE_SHEET_ID);
    ("timestamp", FormRelay.JStr (FormRelay.isoformat now)) ].

End HttpSurface.

(** * Properties *)

(** ** Dictionaries *)

Module PyDictFacts.
Import PyDict.

Lemma NoDup_snoc {A} (l : list A) (x : A) :
  NoDup l -> ~ In x l -> NoDup (l ++ [x]).
Proof.
  intros Hl Hx. induction Hl as [|y l Hy Hl IH]; simpl.
  - constructor; [simpl; tauto | constructor].
  - constructor.
    + rewrite in_app_iff. simpl. intros [H|[H|[]]]; [tauto|].
      subst. apply Hx. left. reflexivity.
    + apply IH. intro H. apply Hx. right. exact H.
Qed.

Section Values.
Context {V : Type}.
Implicit Types (d : dict V) (k : string) (v : V).

Lemma get_set d k v k' :
  get (set d k v) k' = if String.eqb k k' then Some v else get d k'.
Proof.
  induction d as [|[k0 v0] d IH]; simpl.
  - reflexivity.
  - destruct (String.eqb k0 k) eqn:E; simpl.
    + apply String.eqb_eq in E. subst k0.
      destruct (String.eqb k k'); reflexivity.
    + destruct (String.eqb k0 k') eqn:E'.
      * apply String.eqb_eq in E'. subst k0. rewrite String.eqb_sym, E.
        reflexivity.
      * exact IH.
Qed.

Lemma set_new_key d k v : ~ In k (keys d) -> set d k v = d ++ [(k, v)].
Proof.
  induction d as [|[k0 v0] d IH]; simpl; [reflexivity|].
  intro H. destruct (String.eqb k0 k) eqn:E.
  - apply String.eqb_eq in E. tauto.
  - rewrite IH by tauto. reflexivity.
Qed.

Lemma set_old_key d k v : In k (keys d) -> keys (set d k v) = keys d.
Proof.
  induction d as [|[k0 v0] d IH]; simpl; [tauto|].
  intro H. destruct (String.eqb k0 k) eqn:E; simpl; [reflexivity|].
  rewrite IH; [reflexivity|].
  destruct H as [H|H]; [|exact H].
  subst k0. rewrite String.eqb_refl in E. discriminate E.
Qed.

Lemma set_keeps_keys_distinct d k v : NoDup (keys d) -> NoDup (keys (set d k v)).
Proof.
  intro H. destruct (in_dec string_dec k (keys d)) as [Hin|Hout].
  - rewrite set_old_key by exact Hin. exact H.
  - rewrite set_new_key by exact Hout. unfold keys. rewrite map_app.
    apply NoDup_snoc; assumption.
Qed.

Lemma of_pairs_keys_distinct (pairs : list (string * V)) :
  NoDup (keys (of_pairs pairs)).
Proof.
  unfold of_pairs.
  assert (G : forall acc, NoDup (keys acc) ->
    NoDup (keys (fold_left (fun d kv => set d (fst kv) (snd kv)) pairs acc))).
  { induction pairs as [|kv pairs IH]; intros acc Hacc; simpl; [exact Hacc|].
    apply IH. apply set_keeps_keys_distinct. exact Hacc. }
  apply G. constructor.
Qed.

End Values.

(** Filling an empty dictionary from the items of a dictionary, each value
    passed through [g]: the same keys in the same order. *)
Lemma fill_from_items {V W} (g : V -> W) (d : dict V) (acc : dict W) :
  NoDup (keys acc ++ keys d) ->
  fold_left (fun acc kv => set acc (fst kv) (g (snd kv))) d acc
  = acc ++ map (fun kv => (fst kv, g (snd kv))) d.
Proof.
  revert acc. induction d as [|[k v] d IH]; intros acc H; simpl.
  - rewrite app_nil_r. reflexivity.
  - assert (Hk : ~ In k (keys acc)).
    { apply NoDup_remove_2 in H. intro Hin. apply H.
      apply in_app_iff. left. exact Hin. }
    rewrite set_new_key by exact Hk.
    rewrite IH.
    + rewrite <- app_assoc. reflexivity.
    + unfold keys in *. rewrite map_app. simpl. rewrite <- app_assoc. exact H.
Qed.

Lemma get_map_values {V W} (g : V -> W) (d : dict V) (k : string) :
  get (map (fun kv => (fst kv, g (snd kv))) d) k = option_map g (get d k).
Proof.
  induction d as [|[k0 v0] d IH]; simpl; [reflexivity|].
  destruct (String.eqb k0 k); [reflexivity | exact IH].
Qed.

End PyDictFacts.

(** ** The screener *)

Module ScreenerFacts.
Import Screener.

Local Open Scope Q_scope.

Lemma Qlt_bool_lt (a b : Q) : Qlt_bool a b = true <-> a < b.
Proof.
  unfold Qlt_bool. rewrite negb_true_iff. split; intro H.
  - apply Qnot_le_lt. intro L. apply Qle_bool_iff in L. congruence.
  - destruct (Qle_bool b a) eqn:E; [|reflexivity].
    apply Qle_bool_iff in E. exfalso. exact (Qlt_not_le _ _ H E).
Qed.

Lemma before_total (asc : bool) (a b : equity) :
  before asc a b = false -> before asc b a = true.
Proof.
  unfold before. destruct asc; intro H;
    apply Qle_bool_iff; apply Qlt_le_weak; apply Qlt_bool_lt;
    unfold Qlt_bool; rewrite H; reflexivity.
Qed.

Definition ordered (asc : bool) (a b : equity) : Prop := before asc a b = true.

Lemma insert_row_In (asc : bool) (e x : equity) (l : list equity) :
  In x (insert_row asc e l) <-> x = e \/ In x l.
Proof.
  induction l as [|y l IH]; simpl.
  - intuition.
  - destruct (before asc e y); simpl; [intuition|].
    rewrite IH. intuition.
Qed.

Lemma sort_values_In (asc : bool) (x : equity) (l : list equity) :
  In x (sort_values asc l) <-> In x l.
Proof.
  induction l as [|y l IH]; simpl; [tauto|].
  rewrite insert_row_In, IH. intuition.
Qed.

Lemma insert_row_length (asc : bool) (e : equity) (l : list equity) :
  List.length (insert_row asc e l) = S (List.length l).
Proof.
  induction l as [|y l IH]; simpl; [reflexivity|].
  destruct (before asc e y); simpl; congruence.
Qed.

Lemma insert_row_sorted (asc : bool) (e : equity) (l : list equity) :
  Sorted (ordered asc) l -> Sorted (ordered asc) (insert_row asc e l).
Proof.
  induction l as [|y l IH]; intro S; simpl.
  - repeat constructor.
  - destruct (before asc e y) eqn:B.
    + constructor; [assumption|]. constructor. exact B.
    + inversion S as [|? ? Sl Hd]; subst.
      constructor; [apply IH; assumption|].
      destruct l as [|z l]; simpl.
      * constructor. apply before_total. exact B.
      * destruct (before asc e z).
        -- constructor. apply before_total. exact B.
        -- inversion Hd; subst. constructor. assumption.
Qed.

Lemma sort_values_sorted (asc : bool) (l : list equity) :
  Sorted (ordered asc) (sort_values asc l).
Proof.
  induction l as [|x l IH]; simpl; [constructor|].
  apply insert_row_sorted. exact IH.
Qed.

Lemma firstn_sorted {A} (R : A -> A -> Prop) (n : nat) (l : list A) :
  Sorted R l -> Sorted R (firstn n l).
Proof.
  revert l. induction n as [|n IH]; intros l S; simpl; [constructor|].
  destruct l as [|x l]; [constructor|].
  inversion S as [|? ? Sl Hd]; subst.
  constructor; [apply IH; assumption|].
  destruct n; simpl; [constructor|].
  destruct l; [constructor|]. inversion Hd; subst. constructor. assumption.
Qed.

Lemma firstn_incl {A} (n : nat) (l : list A) (x : A) :
  In x (firstn n l) -> In x l.
Proof.
  revert l. induction n as [|n IH]; intros [|y l]; simpl; try tauto.
  intros [H|H]; [left; exact H | right; apply IH; exact H].
Qed.

Lemma map_sorted {A B} (R : A -> A -> Prop) (R' : B -> B -> Prop) (f : A -> B)
      (l : list A) :
  (forall a b, R a b -> R' (f a) (f b)) -> Sorted R l -> Sorted R' (map f l).
Proof.
  intros HR. induction 1 as [|x l Sl IH Hd]; simpl; constructor; [assumption|].
  destruct Hd; simpl; constructor. apply HR. assumption.
Qed.

(** The rows behind the returned records: the head of the sorted frame,
    or nothing when the request raised. *)
Definition selected (get_data : list query_filter -> exc (list equity))
           (region_filter : option string) (gainers : bool) : list equity :=
  match top_frame get_data region_filter gainers with
  | Returns top => top
  | Raises _ => []
  end.

Lemma fetch_top_stocks_selected get_data region_filter gainers :
  fetch_top_stocks get_data region_filter gainers
  = Returns (map to_record (selected get_data region_filter gainers)).
Proof.
  unfold fetch_top_stocks, selected.
  destruct (top_frame get_data region_filter gainers); reflexivity.
Qed.

(** The predicates a query is configured with; [filter_is_set] says when a
    region filter counts as set. *)
Definition configured (filter_is_set : option string -> bool)
           (region_filter : option string) (gainers : bool) (e : equity) : Prop :=
  (if gainers then 3 < regularMarketChangePercent e
   else regularMarketChangePercent e < -2.5) /\
  (if filter_is_set region_filter then 1e9 < marketCap e else 2e9 < marketCap e) /\
  (if filter_is_set region_filter then 10 < regularMarketPrice e
   else 5 < regularMarketPrice e) /\
  1000 < inject_Z (regularMarketVolume e) /\
  (if filter_is_set region_filter then Some (region e) = region_filter else True).

(** Descending for gainers, ascending for losers. *)
Definition in_direction (gainers : bool) (a b : stock_row) : Prop :=
  if gainers then r_percentChange b <= r_percentChange a
  else r_percentChange a <= r_percentChange b.

Definition screened (filter_is_set : option string -> bool)
           (get_data : list query_filter -> exc (list equity))
           (region_filter : option string) (gainers : bool) : Prop :=
  let top := selected get_data region_filter gainers in
  fetch_top_stocks get_data region_filter gainers = Returns (map to_record top) /\
  Forall (configured filter_is_set region_filter gainers) top /\
  Sorted (in_direction gainers) (map to_record top) /\
  (List.length (map to_record top) <= 5)%nat.

Definition not_None (region_filter : option string) : bool :=
  negb (is_None region_filter).

Lemma screen_honours (universe : list equity) : honours (screen universe).
Proof.
  intros q rows H. inversion H; subst. apply Forall_forall.
  intros e He. apply filter_In in He. tauto.
Qed.

Lemma matching_configured (region_filter : option string) (gainers : bool)
      (e : equity) :
  region_filter <> Some ""%string ->
  forallb (matches e) (build_filters region_filter gainers) = true ->
  configured truthy region_filter gainers e.
Proof.
  intros Hne H. unfold configured.
  destruct region_filter as [r|]; simpl in *.
  - assert (Hr : String.eqb r "" = false).
    { apply String.eqb_neq. intro E. apply Hne. now subst. }
    rewrite Hr in *. simpl in *.
    destruct gainers; simpl in H;
      repeat rewrite andb_true_iff in H;
      destruct H as (H1 & H2 & H3 & H4 & H5 & _);
      unfold matches in *; simpl in *;
      apply Qlt_bool_lt in H1, H2, H3, H4; apply String.eqb_eq in H5;
      subst; repeat split; assumption.
  - destruct gainers; simpl in H;
      repeat rewrite andb_true_iff in H;
      destruct H as (H1 & H2 & H3 & H4 & _);
      unfold matches in *; simpl in *;
      apply Qlt_bool_lt in H1, H2, H3, H4;
      repeat split; assumption.
Qed.

Lemma selected_unfold get_data region_filter gainers :
  selected get_data region_filter gainers
  = match get_data (build_filters region_filter gainers) with
    | Returns rows => firstn 5 (sort_values (negb gainers) rows)
    | Raises _ => []
    end.
Proof.
  unfold selected, top_frame.
  destruct (get_data (build_filters region_filter gainers)); reflexivity.
Qed.

Lemma selected_sorted get_data region_filter gainers :
  Sorted (in_direction gainers)
         (map to_record (selected get_data region_filter gainers)).
Proof.
  rewrite selected_unfold.
  destruct (get_data (build_filters region_filter gainers)) as [rows|m];
    [|constructor].
  apply map_sorted with (R := ordered (negb gainers)).
  - intros a b. unfold ordered, before, in_direction.
    destruct gainers; simpl; apply Qle_bool_iff.
  - apply firstn_sorted. apply sort_values_sorted.
Qed.

Lemma selected_length get_data region_filter gainers :
  (List.length (map to_record (selected get_data region_filter gainers)) <= 5)%nat.
Proof.
  rewrite length_map, selected_unfold.
  destruct (get_data (build_filters region_filter gainers)) as [rows|m];
    [apply firstn_le_length | simpl; lia].
Qed.

Lemma selected_from_answer get_data region_filter gainers e :
  In e (selected get_data region_filter gainers) ->
  exists rows, get_data (build_filters region_filter gainers) = Returns rows /\ In e rows.
Proof.
  rewrite selected_unfold.
  destruct (get_data (build_filters region_filter gainers)) as [rows|m];
    [|simpl; tauto].
  intro H. exists rows. split; [reflexivity|].
  apply firstn_incl in H. apply sort_values_In in H. exact H.
Qed.

(** X21: against a screening endpoint that honours its queries, and for a
    region filter that is [None] or a non-empty string, the rows behind the
    returned records all satisfy the configured predicates (percent change
    above 3 or below -2.5, market capitalisation above 2e9 or 1e9, price
    above 5 or 10, volume above 1000, region equal to the filter when one
    is given), the records are in descending order of percent change for
    gainers and ascending for losers, and there are at most five of them. *)
Theorem fetch_top_stocks_screened
        (get_data : list query_filter -> exc (list equity))
        (region_filter : option string) (gainers : bool) :
  honours get_data ->
  region_filter <> Some ""%string ->
  screened truthy get_data region_filter gainers.
Proof.
  intros Hh Hne. unfold screened. cbv zeta.
  split; [apply fetch_top_stocks_selected|].
  split; [|split; [apply selected_sorted | apply selected_length]].
  apply Forall_forall. intros e He.
  destruct (selected_from_answer _ _ _ _ He) as (rows & Hrows & Hin).
  apply matching_configured; [assumption|].
  pose proof (Hh _ _ Hrows) as Hall.
  rewrite Forall_forall in Hall. apply Hall. exact Hin.
Qed.

(** A universe of three equities for the examples. *)
Definition sample_universe : list equity :=
  [ mkEquity "AAA" 20 5 5000 1.5e9 "us";
    mkEquity "BBB" 20 7 5000 3e9 "in";
    mkEquity "CCC" 20 (-7) 5000 3e9 "in" ].

Lemma fetch_top_stocks_screened_witness :
  honours (screen sample_universe) /\
  Some "in"%string <> Some ""%string /\
  screened truthy (screen sample_universe) (Some "in"%string) true.
Proof.
  split; [apply screen_honours|].
  split; [discriminate|].
  apply (fetch_top_stocks_screened (screen sample_universe) (Some "in"%string) true).
  - apply screen_honours.
  - discriminate.
Defined.

(** C1: the code at the empty string as region filter, against an honest
    endpoint.
    Lines 57-58 test [is None] and pick the thresholds of a filtered query
    (1e9, 10); line 64 tests truthiness and sends no region filter.  The
    query is then neither the unfiltered one nor a filtered one, and the
    row of market capitalisation 1.5e9 and region [us] is returned: whether
    the empty string counts as a filter or not, one of the predicates of the
    claim fails.  With [None] and with ["in"] the two tests agree. *)
Theorem fetch_top_stocks_empty_region_filter :
  honours (screen sample_universe) /\
  build_filters (Some ""%string) true
  = [ mkFilter op_gt "percentchange" (Num 3);
      mkFilter op_gt "intradaymarketcap" (Num 1e9);
      mkFilter op_gt "intradayprice" (Num 10);
      mkFilter op_gt "dayvolume" (Num 1000) ] /\
  fetch_top_stocks (screen sample_universe) (Some ""%string) true
  = Returns [ mkRow "BBB" 20 7 5000; mkRow "AAA" 20 5 5000 ] /\
  ~ screened not_None (screen sample_universe) (Some ""%string) true /\
  ~ screened truthy (screen sample_universe) (Some ""%string) true /\
  fetch_top_stocks (screen sample_universe) None true
  = Returns [ mkRow "BBB" 20 7 5000 ] /\
  fetch_top_stocks (screen sample_universe) (Some "in"%string) true
  = Returns [ mkRow "BBB" 20 7 5000 ].
Proof.
  split; [apply screen_honours|].
  split; [reflexivity|].
  split; [reflexivity|].
  split; [|split; [|split; reflexivity]];
    intros (_ & Hall & _); vm_compute in Hall;
    inversion Hall as [|? ? _ Hrest]; subst;
    inversion Hrest as [|? ? Hc _]; subst;
    destruct Hc as (_ & Hcap & _ & _ & Hreg).
  - discriminate Hreg.
  - vm_compute in Hcap. discriminate Hcap.
Qed.

End ScreenerFacts.

(** ** Index snapshots *)

Module IndicesFacts.
Import PyDict PyStr Indices.

Local Open Scope Q_scope.

(** The entry one index gets from the answer to its own request. *)
Definition snapshot_for (true_divide : Q -> Q -> exc Q)
           (index_name symbol : string) (answer : exc data_frame) : snapshot :=
  match index_step (fun _ => answer) true_divide [] (index_name, symbol) with
  | Returns [(_, s)] => s
  | _ => blank symbol index_name error
  end.

Lemma index_step_sets history true_divide d index_name symbol :
  index_step history true_divide d (index_name, symbol)
  = Returns (set d index_name
               (snapshot_for true_divide index_name symbol (history symbol))).
Proof.
  unfold snapshot_for, index_step.
  destruct (history symbol) as [hist|m]; [|reflexivity].
  unfold try_except, bind, ret.
  destruct (negb (empty hist) && (1 <=? len hist)%nat); [|reflexivity].
  destruct (iloc_from_end (map Close (rows hist)) 1) as [cur|]; [|reflexivity].
  destruct (2 <=? len hist)%nat;
    [ destruct (iloc_from_end (map Close (rows hist)) 2) as [prev|]; [|reflexivity];
      destruct (negb (Qeq_bool prev 0));
      [ destruct (true_divide (fsub cur prev) prev); [|reflexivity] | ]
    | ];
    (destruct (has_volume_column hist && negb (empty hist));
     [ destruct (iloc_from_end (map Volume (rows hist)) 1) | ]; reflexivity).
Qed.

Lemma snapshot_for_raise true_divide index_name symbol m :
  snapshot_for true_divide index_name symbol (Raises m)
  = blank symbol index_name error.
Proof. reflexivity. Qed.

Lemma snapshot_for_no_bars true_divide index_name symbol vc :
  snapshot_for true_divide index_name symbol (Returns (mkFrame [] vc))
  = blank symbol index_name no_data.
Proof. reflexivity. Qed.

(** The whole dictionary, entry by entry. *)
Lemma fetch_indian_indices_entries history true_divide :
  fetch_indian_indices history true_divide
  = Returns
      [ ("nifty", snapshot_for true_divide "nifty" "^NSEI" (history "^NSEI"));
        ("sensex", snapshot_for true_divide "sensex" "^BSESN" (history "^BSESN"));
        ("banknifty",
         snapshot_for true_divide "banknifty" "^NSEBANK" (history "^NSEBANK"));
        ("midcap_nifty",
         snapshot_for true_divide "midcap_nifty" "NIFTYMIDCAP50.NS"
                      (history "NIFTYMIDCAP50.NS")) ].
Proof.
  unfold fetch_indian_indices, INDIAN_INDICES, items.
  cbn [for_each]. repeat (rewrite index_step_sets; cbn [bind]).
  reflexivity.
Qed.

Lemma fetch_indian_indices_get history true_divide index_name symbol :
  In (index_name, symbol) INDIAN_INDICES ->
  exists d,
    fetch_indian_indices history true_divide = Returns d /\
    get d index_name
    = Some (snapshot_for true_divide index_name symbol (history symbol)).
Proof.
  intro Hin. eexists. split; [apply fetch_indian_indices_entries|].
  simpl in Hin.
  destruct Hin as [H|[H|[H|[H|[]]]]]; inversion H; subst; reflexivity.
Qed.

(** An entry whose numeric fields are all null, with the given status. *)
Definition null_filled (snap : snapshot) (st : status) : Prop :=
  current_price snap = None /\
  previous_close snap = None /\
  change snap = None /\
  change_percent snap = None /\
  volume snap = None /\
  sn_status snap = st.

(** C2: whatever each of the four history requests does, the returned
    dictionary has exactly the four configured keys, each once; the entry
    of an index is determined by the answer to its own request alone
    ([snapshot_for]): an answer without bars gives an entry with its
    symbol and name whose five numeric fields are null and whose status is
    [no_data], a request that raises gives such an entry with status
    [error], and two services that answer alike for one index give it the
    same entry, whatever they do for the other three. *)
Theorem fetch_indian_indices_one_entry_each
        (history : string -> exc data_frame) (true_divide : Q -> Q -> exc Q) :
  exists d,
    fetch_indian_indices history true_divide = Returns d /\
    keys d = ["nifty"; "sensex"; "banknifty"; "midcap_nifty"]%string /\
    keys d = keys INDIAN_INDICES /\
    NoDup (keys d) /\
    forall index_name symbol,
      In (index_name, symbol) INDIAN_INDICES ->
      get d index_name
      = Some (snapshot_for true_divide index_name symbol (history symbol)) /\
      (forall vc, history symbol = Returns (mkFrame [] vc) ->
         get d index_name = Some (blank symbol index_name no_data) /\
         exists snap,
           get d index_name = Some snap /\
           snap = mkSnapshot symbol (title (replace_underscores index_name))
                             None None None None None no_data /\
           null_filled snap no_data) /\
      (forall m, history symbol = Raises m ->
         get d index_name = Some (blank symbol index_name error) /\
         exists snap,
           get d index_name = Some snap /\
           snap = mkSnapshot symbol (title (replace_underscores index_name))
                             None None None None None error /\
           null_filled snap error) /\
      (forall history', history' symbol = history symbol ->
         exists d', fetch_indian_indices history' true_divide = Returns d' /\
                    get d' index_name = get d index_name).
Proof.
  eexists. split; [apply fetch_indian_indices_entries|].
  split; [reflexivity|]. split; [reflexivity|].
  split.
  { simpl. repeat constructor; simpl; intuition discriminate. }
  intros index_name symbol Hin.
  assert (Hget : get
      [ ("nifty", snapshot_for true_divide "nifty" "^NSEI" (history "^NSEI"));
        ("sensex", snapshot_for true_divide "sensex" "^BSESN" (history "^BSESN"));
        ("banknifty",
         snapshot_for true_divide "banknifty" "^NSEBANK" (history "^NSEBANK"));
        ("midcap_nifty",
         snapshot_for true_divide "midcap_nifty" "NIFTYMIDCAP50.NS"
                      (history "NIFTYMIDCAP50.NS")) ] index_name
      = Some (snapshot_for true_divide index_name symbol (history symbol))).
  { simpl in Hin.
    destruct Hin as [H|[H|[H|[H|[]]]]]; inversion H; subst; reflexivity. }
  split; [exact Hget|]. split; [|split].
  - intros vc Hh. rewrite Hget, Hh. split; [reflexivity|].
    eexists. split; [reflexivity|]. split; [reflexivity|].
    repeat split.
  - intros m Hh. rewrite Hget, Hh. split; [reflexivity|].
    eexists. split; [reflexivity|]. split; [reflexivity|].
    repeat split.
  - intros history' Hsame.
    destruct (fetch_indian_indices_get history' true_divide _ _ Hin)
      as (d' & Hd' & Hg').
    exists d'. split; [exact Hd'|]. rewrite Hg', Hget, Hsame. reflexivity.
Qed.

(** *** Two bars and more *)

Lemma iloc_last {A} (pre : list A) (a : A) :
  iloc_from_end (pre ++ [a]) 1 = Returns a.
Proof. unfold iloc_from_end. rewrite rev_app_distr. reflexivity. Qed.

Lemma iloc_last_but_one {A} (pre : list A) (a b : A) :
  iloc_from_end (pre ++ [a; b]) 2 = Returns a.
Proof. unfold iloc_from_end. rewrite rev_app_distr. reflexivity. Qed.

Lemma iloc_last_of_two {A} (pre : list A) (a b : A) :
  iloc_from_end (pre ++ [a; b]) 1 = Returns b.
Proof. unfold iloc_from_end. rewrite rev_app_distr. reflexivity. Qed.

Lemma two_bars_shape (pre : list bar) (b_prev b_cur : bar) (vc : bool) :
  let hist := mkFrame (pre ++ [b_prev; b_cur]) vc in
  empty hist = false /\ (1 <=? len hist)%nat = true /\ (2 <=? len hist)%nat = true.
Proof.
  unfold empty, len. cbn [rows]. rewrite length_app. cbn [List.length].
  split; [destruct pre; reflexivity|].
  split; apply Nat.leb_le; lia.
Qed.

(** The entry for a history of at least two bars, the last two being
    [b_prev] and [b_cur]. *)
Lemma snapshot_for_two_bars true_divide index_name symbol pre b_prev b_cur vc :
  snapshot_for true_divide index_name symbol
               (Returns (mkFrame (pre ++ [b_prev; b_cur]) vc))
  = match (if negb (Qeq_bool (Close b_prev) 0)
           then bind (true_divide (fsub (Close b_cur) (Close b_prev)) (Close b_prev))
                     (fun q => ret (fmul q 100))
           else ret 0) with
    | Returns change_percent =>
        mkSnapshot symbol (title (replace_underscores index_name))
                   (Some (round2 (Close b_cur)))
                   (Some (round2 (Close b_prev)))
                   (Some (round2 (fsub (Close b_cur) (Close b_prev))))
                   (Some (round2 change_percent))
                   (Some (if vc then Volume b_cur else 0%Z))
                   live_data
    | Raises _ => blank symbol index_name error
    end.
Proof.
  unfold snapshot_for, index_step.
  destruct (two_bars_shape pre b_prev b_cur vc) as (He & H1 & H2).
  cbv zeta in He, H1, H2.
  unfold try_except, bind, ret.
  rewrite He, H1, H2. cbn [negb andb rows has_volume_column].
  rewrite !map_app. cbn [map].
  rewrite !iloc_last_of_two, iloc_last_but_one.
  destruct (negb (Qeq_bool (Close b_prev) 0)).
  - destruct (true_divide (fsub (Close b_cur) (Close b_prev)) (Close b_prev));
      [|reflexivity].
    destruct vc; reflexivity.
  - destruct vc; reflexivity.
Qed.

(** C3, as amended: for an index whose request answers with exactly two
    bars, previous close P other than 0 and current close C, the entry has
    status [live_data], [change] is the float C - P rounded to two decimals
    and [change_percent] is the float ((C - P) / P) * 100, computed in that
    order, rounded to two decimals. *)
Theorem two_bars_change_rounded
        (history : string -> exc data_frame) (index_name symbol : string)
        (b_prev b_cur : bar) (vc : bool) :
  In (index_name, symbol) INDIAN_INDICES ->
  history symbol = Returns (mkFrame [b_prev; b_cur] vc) ->
  ~ Close b_prev == 0 ->
  exists d snap,
    fetch_indian_indices history divide = Returns d /\
    get d index_name = Some snap /\
    change snap = Some (round2 (fsub (Close b_cur) (Close b_prev))) /\
    change_percent snap
    = Some (round2 (fmul (fdiv (fsub (Close b_cur) (Close b_prev))
                               (Close b_prev)) 100)) /\
    sn_status snap = live_data.
Proof.
  intros Hin Hh Hnz.
  destruct (fetch_indian_indices_get history divide _ _ Hin) as (d & Hd & Hg).
  exists d. eexists. split; [exact Hd|]. split; [exact Hg|].
  rewrite Hh.
  change [b_prev; b_cur] with ([] ++ [b_prev; b_cur]).
  rewrite snapshot_for_two_bars.
  unfold divide.
  assert (Hz : Qeq_bool (Close b_prev) 0 = false).
  { destruct (Qeq_bool (Close b_prev) 0) eqn:E; [|reflexivity].
    apply Qeq_bool_iff in E. contradiction. }
  rewrite Hz. cbn [negb bind ret change change_percent sn_status].
  repeat split.
Qed.

Definition two_bar_history (s : string) : exc data_frame :=
  Returns (mkFrame [mkBar 100 10; mkBar (1001875 # 10000) 20] true).

Lemma two_bars_change_rounded_witness :
  exists d snap,
    fetch_indian_indices two_bar_history divide = Returns d /\
    get d "nifty" = Some snap /\
    change snap = Some (round2 (fsub (1001875 # 10000) 100)) /\
    change_percent snap
    = Some (round2 (fmul (fdiv (fsub (1001875 # 10000) 100) 100) 100)) /\
    sn_status snap = live_data.
Proof.
  apply (two_bars_change_rounded two_bar_history "nifty" "^NSEI"
           (mkBar 100 10) (mkBar (1001875 # 10000) 20) true).
  - simpl. left. reflexivity.
  - reflexivity.
  - intro H. vm_compute in H. discriminate H.
Defined.

(** The rounded fields on three pairs of closes, among them two whose exact
    percent change lies halfway between two hundredths while the float
    does not: 20000 to 19217 gives -3.91, 20 to 22.875 gives 14.37. *)
Definition closes_to_fields (prev_close current_price : Q) : option Q * option Q :=
  let snap := snapshot_for divide "nifty" "^NSEI"
                (Returns (mkFrame [mkBar prev_close 0; mkBar current_price 0] true)) in
  (change snap, change_percent snap).

Example change_percent_of_floats :
  closes_to_fields 20000 19217
  = (Some (-783), Some (float64 (-391 # 100))) /\
  closes_to_fields 20 (22875 # 1000)
  = (Some (float64 (288 # 100)), Some (float64 (1437 # 100))) /\
  closes_to_fields (float64 (5909523402962405 # 100000000000))
                   (float64 (5761489841718197 # 100000000000))
  = (Some (float64 (-148034 # 100)), Some (-5 # 2)).
Proof. vm_compute. repeat split. Qed.

(** C3 as stated: [change] is C - P and [change_percent] is 100 (C - P) / P. *)
Definition exact_change (history : string -> exc data_frame)
           (index_name : string) (P C : Q) : Prop :=
  exists d snap c cp,
    fetch_indian_indices history divide = Returns d /\
    get d index_name = Some snap /\
    change snap = Some c /\ c == C - P /\
    change_percent snap = Some cp /\ cp == 100 * (C - P) / P /\
    sn_status snap = live_data.

(** C3, as stated, fails: with closes 100 and 100.1875 the entry carries
    [change] 0.19 (the float nearest to it), not 0.1875, because the fields
    are rounded to two decimals. *)
Lemma two_bars_exact_change_counterexample :
  (exists d snap,
      fetch_indian_indices two_bar_history divide = Returns d /\
      get d "nifty" = Some snap /\
      change snap = Some (float64 (19 # 100)) /\ sn_status snap = live_data) /\
  ~ exact_change two_bar_history "nifty" 100 (1001875 # 10000).
Proof.
  split.
  - eexists. eexists. split; [reflexivity|]. split; [reflexivity|].
    split; vm_compute; reflexivity.
  - intros (d & snap & c & cp & Hd & Hg & Hc & Hceq & _).
    vm_compute in Hd. inversion Hd; subst d. clear Hd.
    vm_compute in Hg. inversion Hg; subst snap. clear Hg.
    vm_compute in Hc. inversion Hc; subst c. clear Hc.
    vm_compute in Hceq. discriminate Hceq.
Qed.

(** C4: for an index whose request answers with at least two bars, the
    previous close being 0, the entry has [change_percent] 0 and status
    [live_data]; this holds for every behaviour of the division operator,
    one that faults on every call included, so the division is not
    executed on this path. *)
Theorem zero_previous_close_no_division
        (history : string -> exc data_frame) (true_divide : Q -> Q -> exc Q)
        (index_name symbol : string)
        (pre : list bar) (b_prev b_cur : bar) (vc : bool) :
  In (index_name, symbol) INDIAN_INDICES ->
  history symbol = Returns (mkFrame (pre ++ [b_prev; b_cur]) vc) ->
  Close b_prev == 0 ->
  exists d snap,
    fetch_indian_indices history true_divide = Returns d /\
    get d index_name = Some snap /\
    change_percent snap = Some 0 /\
    sn_status snap = live_data.
Proof.
  intros Hin Hh Hz.
  destruct (fetch_indian_indices_get history true_divide _ _ Hin) as (d & Hd & Hg).
  exists d. eexists. split; [exact Hd|]. split; [exact Hg|].
  rewrite Hh, snapshot_for_two_bars.
  apply Qeq_bool_iff in Hz. rewrite Hz.
  split; reflexivity.
Qed.

Definition zero_close_history (s : string) : exc data_frame :=
  Returns (mkFrame [mkBar 7 1; mkBar 0 2; mkBar 12 3] true).

Definition faulting_division (a b : Q) : exc Q := Raises "division by zero".

Lemma zero_previous_close_no_division_witness :
  exists d snap,
    fetch_indian_indices zero_close_history faulting_division = Returns d /\
    get d "sensex" = Some snap /\
    change_percent snap = Some 0 /\
    sn_status snap = live_data.
Proof.
  apply (zero_previous_close_no_division zero_close_history faulting_division
           "sensex" "^BSESN" [mkBar 7 1] (mkBar 0 2) (mkBar 12 3) true).
  - simpl. right. left. reflexivity.
  - reflexivity.
  - reflexivity.
Defined.

End IndicesFacts.

(** ** News *)

Module NewsFacts.
Import News PyDictFacts.

(** The article a symbol contributes: the first of its news list, when the
    request returns and the list is not empty. *)
Definition top_article (answer : exc (list article)) : option article :=
  match answer with
  | Returns (a :: _) => Some a
  | _ => None
  end.

Definition item_of (symbol : string) (a : article) : news_item :=
  mkItem (Some symbol) (title_of a) (publisher_of a) (link_of a).

Definition counted (st : news_state) : news_state :=
  mkState (news_results st) (seen_links st) (S (successful_symbols st)).

(** One iteration, as a function of the state. *)
Definition after_symbol (news : string -> exc (list article))
           (st : news_state) (symbol : string) : news_state :=
  match top_article (news symbol) with
  | Some a => add_article symbol (counted st) a
  | None => st
  end.

Lemma symbol_step_returns news st symbol :
  symbol_step news st symbol = Returns (after_symbol news st symbol).
Proof.
  unfold symbol_step, after_symbol.
  destruct (news symbol) as [[|a rest]|m]; reflexivity.
Qed.

Lemma for_each_symbols news symbols st :
  for_each symbols (symbol_step news) st
  = Returns (fold_left (after_symbol news) symbols st).
Proof.
  revert st. induction symbols as [|s symbols IH]; intro st; simpl.
  - reflexivity.
  - rewrite symbol_step_returns. simpl. apply IH.
Qed.

Definition final_state (news : string -> exc (list article))
           (symbols : list string) : news_state :=
  fold_left (after_symbol news) symbols (mkState [] [] 0).

Lemma fetch_indian_news_returns news symbols :
  fetch_indian_news news symbols = Returns (news_results (final_state news symbols)).
Proof.
  unfold fetch_indian_news. rewrite for_each_symbols. reflexivity.
Qed.

Lemma mem_In (x : string) (s : list string) : mem x s = true <-> In x s.
Proof.
  unfold mem. rewrite existsb_exists. split.
  - intros (y & Hy & E). apply String.eqb_eq in E. now subst.
  - intro H. exists x. split; [assumption | apply String.eqb_refl].
Qed.

(** An item is in the list for the first symbol, in iteration order, whose
    top article has its link. *)
Definition first_surfaced (news : string -> exc (list article))
           (processed : list string) (item : news_item) : Prop :=
  exists pre symbol post a,
    processed = pre ++ symbol :: post /\
    top_article (news symbol) = Some a /\
    item = item_of symbol a /\
    forall symbol' a', In symbol' pre ->
                       top_article (news symbol') = Some a' ->
                       link_of a' <> link_of a.

Record invariant (news : string -> exc (list article))
       (processed : list string) (st : news_state) : Prop := {
  seen_are_links :
    forall l, In l (seen_links st) <-> In l (map item_link (news_results st));
  links_distinct : NoDup (map item_link (news_results st));
  links_complete :
    forall symbol a, In symbol processed ->
                     top_article (news symbol) = Some a ->
                     In (link_of a) (map item_link (news_results st));
  items_first :
    forall item, In item (news_results st) -> first_surfaced news processed item
}.

Lemma first_surfaced_later news processed symbol item :
  first_surfaced news processed item ->
  first_surfaced news (processed ++ [symbol]) item.
Proof.
  intros (pre & s & post & a & Hp & Ha & Hi & Hfirst).
  exists pre, s, (post ++ [symbol]), a. subst processed.
  rewrite <- app_assoc. repeat split; assumption.
Qed.

Lemma invariant_step news processed st symbol :
  invariant news processed st ->
  invariant news (processed ++ [symbol]) (after_symbol news st symbol).
Proof.
  intros [Hseen Hnd Hcomplete Hfirst]. unfold after_symbol.
  destruct (top_article (news symbol)) as [a|] eqn:Htop.
  - unfold add_article. cbn [seen_links counted].
    destruct (mem (link_of a) (seen_links st)) eqn:Hmem; cbn [negb].
    + (* the link was seen: nothing is added *)
      apply mem_In in Hmem.
      constructor; cbn [news_results seen_links counted].
      * exact Hseen.
      * exact Hnd.
      * intros s' a' Hin Ha'. apply in_app_iff in Hin.
        destruct Hin as [Hin|[E|[]]]; [eapply Hcomplete; eassumption|].
        subst s'. rewrite Htop in Ha'. inversion Ha'; subst a'.
        apply Hseen. exact Hmem.
      * intros item Hitem. apply first_surfaced_later. apply Hfirst. exact Hitem.
    + (* a new link: the item is appended *)
      assert (Hnew : ~ In (link_of a) (map item_link (news_results st))).
      { intro H. apply Hseen in H. apply mem_In in H. congruence. }
      constructor; cbn [news_results seen_links counted].
      * intro l. rewrite map_app, in_app_iff. simpl. rewrite Hseen. tauto.
      * rewrite map_app. simpl. apply NoDup_snoc; assumption.
      * intros s' a' Hin Ha'. rewrite map_app, in_app_iff.
        apply in_app_iff in Hin.
        destruct Hin as [Hin|[E|[]]]; [left; eapply Hcomplete; eassumption|].
        subst s'. rewrite Htop in Ha'. inversion Ha'; subst a'.
        right. simpl. left. reflexivity.
      * intros item Hitem. apply in_app_iff in Hitem.
        destruct Hitem as [Hitem|[E|[]]].
        -- apply first_surfaced_later. apply Hfirst. exact Hitem.
        -- exists processed, symbol, [], a. repeat split; try assumption.
           ++ symmetry. exact E.
           ++ intros s' a' Hin Ha' El. apply Hnew. rewrite <- El.
              eapply Hcomplete; eassumption.
  - constructor.
    + exact Hseen.
    + exact Hnd.
    + intros s' a' Hin Ha'. apply in_app_iff in Hin.
      destruct Hin as [Hin|[E|[]]]; [eapply Hcomplete; eassumption|].
      subst s'. congruence.
    + intros item Hitem. apply first_surfaced_later. apply Hfirst. exact Hitem.
Qed.

Lemma invariant_final news symbols :
  invariant news symbols (final_state news symbols).
Proof.
  unfold final_state.
  induction symbols as [|s symbols IH] using rev_ind.
  - constructor; simpl; try tauto. constructor.
  - rewrite fold_left_app. simpl. apply invariant_step. exact IH.
Qed.

(** A symbol whose request raises leaves the state as it is. *)
Lemma raising_symbols_skipped news symbols st :
  fold_left (after_symbol news) symbols st
  = fold_left (after_symbol news)
              (filter (fun s => negb (raises (news s))) symbols) st.
Proof.
  revert st. induction symbols as [|s symbols IH]; intro st; simpl; [reflexivity|].
  destruct (news s) as [l|m] eqn:E; simpl.
  - apply IH.
  - rewrite <- IH. unfold after_symbol at 2. rewrite E. reflexivity.
Qed.

(** C5: the links of the returned items are pairwise distinct; a link that
    is the top article's link of some symbol of the list occurs exactly
    once, whatever the number of symbols that resolve to it; every item
    carries the first symbol, in iteration order, whose top article has
    that link; and the result is the one obtained from the list without the
    symbols whose request raises. *)
Theorem fetch_indian_news_deduplicated
        (news : string -> exc (list article)) (symbols : list string) :
  exists items,
    fetch_indian_news news symbols = Returns items /\
    NoDup (map item_link items) /\
    (forall symbol a,
        In symbol symbols -> top_article (news symbol) = Some a ->
        count_occ string_dec (map item_link items) (link_of a) = 1%nat) /\
    (forall item, In item items -> first_surfaced news symbols item) /\
    fetch_indian_news news (filter (fun s => negb (raises (news s))) symbols)
    = Returns items.
Proof.
  exists (news_results (final_state news symbols)).
  destruct (invariant_final news symbols) as [_ Hnd Hcomplete Hfirst].
  split; [apply fetch_indian_news_returns|].
  split; [exact Hnd|].
  split.
  { intros s a Hin Ha.
    apply (proj1 (NoDup_count_occ' string_dec _) Hnd).
    eapply Hcomplete; eassumption. }
  split; [exact Hfirst|].
  rewrite fetch_indian_news_returns. unfold final_state.
  rewrite <- raising_symbols_skipped. reflexivity.
Qed.

End NewsFacts.

(** ** Failures of the outside services *)

Module ErrorFacts.
Import Screener News NewsFacts.

Lemma fetch_top_stocks_on_raise get_data region_filter gainers m :
  get_data (build_filters region_filter gainers) = Raises m ->
  fetch_top_stocks get_data region_filter gainers = Returns [].
Proof.
  intro H. unfold fetch_top_stocks, top_frame. rewrite H. reflexivity.
Qed.

Lemma fetch_top_stocks_returns get_data region_filter gainers :
  exists rows, fetch_top_stocks get_data region_filter gainers = Returns rows.
Proof.
  unfold fetch_top_stocks.
  destruct (top_frame get_data region_filter gainers); simpl; eauto.
Qed.

Lemma fetch_global_news_returns news :
  exists items, fetch_global_news news = Returns items.
Proof.
  unfold fetch_global_news. destruct (news "^GSPC"); simpl; eauto.
Qed.

Lemma all_raise_nothing_added news symbols st :
  (forall s, In s symbols -> raises (news s) = true) ->
  fold_left (after_symbol news) symbols st = st.
Proof.
  revert st. induction symbols as [|s symbols IH]; intros st H; simpl; [reflexivity|].
  assert (E : after_symbol news st s = st).
  { unfold after_symbol. specialize (H s (or_introl Logic.eq_refl)).
    destruct (news s); [discriminate H | reflexivity]. }
  rewrite E. apply IH. intros s' Hs'. apply H. right. exact Hs'.
Qed.

(** C6, as amended: none of the three fetch functions raises, whatever the
    outside service does.  fetch_top_stocks and fetch_global_news return
    the empty list when their request raises.  fetch_indian_news returns
    the items of the symbols whose request did not raise, which is the
    empty list when every request raises. *)
Theorem fetch_functions_never_raise
        (get_data : list query_filter -> exc (list equity))
        (news : string -> exc (list article))
        (region_filter : option string) (gainers : bool) (symbols : list string) :
  (exists rows, fetch_top_stocks get_data region_filter gainers = Returns rows) /\
  (forall m, get_data (build_filters region_filter gainers) = Raises m ->
             fetch_top_stocks get_data region_filter gainers = Returns []) /\
  (exists items, fetch_global_news news = Returns items) /\
  (forall m, news "^GSPC" = Raises m -> fetch_global_news news = Returns []) /\
  (exists items,
      fetch_indian_news news symbols = Returns items /\
      fetch_indian_news news (filter (fun s => negb (raises (news s))) symbols)
      = Returns items) /\
  ((forall s, In s symbols -> raises (news s) = true) ->
   fetch_indian_news news symbols = Returns []).
Proof.
  split; [apply fetch_top_stocks_returns|].
  split; [intros m; apply fetch_top_stocks_on_raise|].
  split; [apply fetch_global_news_returns|].
  split.
  { intros m H. unfold fetch_global_news. rewrite H. reflexivity. }
  split.
  { exists (news_results (final_state news symbols)).
    split; [apply fetch_indian_news_returns|].
    rewrite fetch_indian_news_returns. unfold final_state.
    rewrite <- raising_symbols_skipped. reflexivity. }
  intro H. rewrite fetch_indian_news_returns. unfold final_state.
  rewrite all_raise_nothing_added; [reflexivity | exact H].
Qed.

(** C6 as stated, for fetch_indian_news: an error of the service on any
    request gives the empty list. *)
Definition empty_on_any_error (news : string -> exc (list article))
           (symbols : list string) : Prop :=
  (exists s, In s symbols /\ raises (news s) = true) ->
  fetch_indian_news news symbols = Returns [].

Definition sample_article (link : string) : article :=
  mkArticle (Some (mkContent (Some "Results") (Some (mkProvider (Some "Wire")))
                             (Some (mkUrl (Some link) None)))).

(** The request for TCS.NS raises, every other one returns one article. *)
Definition flaky_news (symbol : string) : exc (list article) :=
  if String.eqb symbol "TCS.NS" then Raises "timed out"
  else Returns [sample_article "https://example.com/results"].

(** C6, as stated, fails for fetch_indian_news: the request of one symbol
    raises and the function still returns the item of the other. *)
Lemma fetch_indian_news_error_counterexample :
  raises (flaky_news "TCS.NS") = true /\
  fetch_indian_news flaky_news ["TCS.NS"; "INFY.NS"]
  = Returns [ mkItem (Some "INFY.NS") "Results" "Wire" "https://example.com/results" ] /\
  ~ empty_on_any_error flaky_news ["TCS.NS"; "INFY.NS"].
Proof.
  split; [reflexivity|]. split; [reflexivity|].
  intro H.
  assert (E : fetch_indian_news flaky_news ["TCS.NS"; "INFY.NS"] = Returns []).
  { apply H. exists "TCS.NS". split; [left; reflexivity | reflexivity]. }
  vm_compute in E. discriminate E.
Qed.

(** Two symbols whose top article has the same link: one item, carrying
    the first symbol. *)
Example fetch_indian_news_shared_link :
  fetch_indian_news flaky_news ["INFY.NS"; "TCS.NS"; "LT.NS"]
  = Returns [ mkItem (Some "INFY.NS") "Results" "Wire" "https://example.com/results" ].
Proof. reflexivity. Qed.

End ErrorFacts.

(** ** The spreadsheet *)

Module SheetFacts.
Import PyDict PyStr FormRelay.

(** Credentials are configured when the path is set, not empty, and names
    an existing file. *)
Definition configured (service_account_path : option string)
           (path_exists : string -> bool) : Prop :=
  exists path, service_account_path = Some path /\
               nonempty path = true /\ path_exists path = true.

Definition aligned_row (form_data : dict string) (headers : list string)
  : list string :=
  map (fun header => get_default form_data header "") headers.

(** The client can read the records of the sheet: its first row, padded to
    the width of the sheet, has no cell twice. *)
Definition readable (sh : worksheet) : bool :=
  distinct (pad (max_width sh) (hd [] sh)).

Lemma pad_own_width (row : list string) : pad (List.length row) row = row.
Proof. unfold pad. rewrite Nat.sub_diag. apply app_nil_r. Qed.

Section Configured.

Variable cell : Type.
Variable numericise : string -> cell.
Variable service_account_path : option string.
Variable path_exists : string -> bool.
Hypothesis credentials : configured service_account_path path_exists.

Definition add_row (form_data : dict string) (w : world) : exc bool * world :=
  add_to_google_sheet service_account_path path_exists (Returns tt)
                      cell numericise form_data w.

Ltac enter_sheet :=
  let path := fresh "path" in
  let Hp := fresh "Hp" in
  let Hne := fresh "Hne" in
  let Hex := fresh "Hex" in
  destruct credentials as (path & Hp & Hne & Hex);
  unfold add_row, add_to_google_sheet; rewrite Hp;
  unfold etry, ebind, lift, get_all_records, row_values, insert_row, delete_rows,
    append_row, modify, eret;
  rewrite Hne, Hex; cbn [andb].


(** A sheet that holds one row only. *)
Lemma add_row_single_row form_data w header :
  sheet w = [header] ->
  distinct header = true ->
  add_row form_data w
  = (Returns true,
     with_sheet w [keys form_data; header;
                   aligned_row form_data (keys form_data)]).
Proof.
  intros Hsh Hd. enter_sheet. destruct w as [t o sh]. cbn [sheet] in *. subst sh.
  cbn [max_width fold_right]. rewrite Nat.max_0_r, pad_own_width, Hd.
  reflexivity.
Qed.



(** A sheet whose padded first row has a cell twice: the client raises,
    the call returns false and writes nothing. *)
Lemma add_row_unreadable form_data w :
  sheet w <> [] ->
  readable (sheet w) = false ->
  add_row form_data w = (Returns false, w).
Proof.
  intros Hsh Hread. enter_sheet.
  destruct w as [t o sh]. cbn [sheet] in *.
  destruct sh as [|header rest]; [contradiction|].
  unfold readable in Hread. cbn [hd] in Hread. rewrite Hread.
  reflexivity.
Qed.

End Configured.

Definition sample_path : option string := Some "service-account.json".
Definition every_path_exists (path : string) : bool := true.

(** The cells as texts, for the examples: the code never looks into a
    record. *)
Definition as_text (s : string) : string := s.

Definition sample_add_row (form_data : dict string) (w : world)
  : exc bool * world :=
  add_row string as_text sample_path every_path_exists form_data w.

Lemma sample_configured : configured sample_path every_path_exists.
Proof. exists "service-account.json". repeat split. Qed.

(** The first submission to an empty sheet. *)
Example add_to_google_sheet_empty_sheet :
  sample_add_row [("a", "1"); ("b", "2")] (mkWorld 0 [] [])
  = (Returns true, mkWorld 0 [] [["a"; "b"]; ["1"; "2"]]).
Proof. reflexivity. Qed.

(** Without credentials the call returns false and writes nothing. *)
Lemma add_to_google_sheet_not_configured
      path_exists open_sheet (cell : Type) (numericise : string -> cell)
      form_data w :
  add_to_google_sheet None path_exists open_sheet cell numericise form_data w
  = (Returns false, w).
Proof. reflexivity. Qed.

(** An unreachable spreadsheet: false, and nothing is written. *)
Lemma add_to_google_sheet_unreachable
      (cell : Type) (numericise : string -> cell) m form_data w :
  add_to_google_sheet sample_path every_path_exists (Raises m)
                      cell numericise form_data w
  = (Returns false, w).
Proof. reflexivity. Qed.

(** What C7 says of a sheet whose first row is [a] and whose other rows are
    [rest], for formData {a:1, c:3}: the first row becomes [a, c], the
    rows below stay, and [1, 3] is appended. *)
Definition header_replaced (rest : worksheet) : Prop :=
  sheet (snd (sample_add_row [("a", "1"); ("c", "3")]
                             (mkWorld 0 [] (["a"] :: rest))))
  = ["a"; "c"] :: rest ++ [["1"; "3"]].

(** C7: the code on the sheet that holds the header row [a] and no data
    row, with formData {a:1, c:3}.  The client reports no record for it, so
    the branch for a sheet without headers runs (lines 333-336): the row
    [a, c] is inserted above and the old header [a] stays as the second
    row, which the claim rules out.  With one data row under the same
    header the other branch runs and deletes the old header (lines
    345-347). *)
Theorem add_to_google_sheet_header_only :
  sample_add_row [("a", "1"); ("c", "3")] (mkWorld 0 [] [["a"]])
  = (Returns true, mkWorld 0 [] [["a"; "c"]; ["a"]; ["1"; "3"]]) /\
  ~ header_replaced [] /\
  sample_add_row [("a", "1"); ("c", "3")] (mkWorld 0 [] [["a"]; ["7"]])
  = (Returns true, mkWorld 0 [] [["a"; "c"]; ["7"]; ["1"; "3"]]) /\
  header_replaced [["7"]].
Proof.
  split; [reflexivity|].
  split; [unfold header_replaced; vm_compute; discriminate|].
  split; reflexivity.
Qed.

End SheetFacts.

(** ** Form submissions *)

Module FormFacts.
Import PyDict PyStr PyDictFacts FormRelay.

Definition normalised (kv : string * string) : string * string :=
  (fst kv, if nonempty (snd kv) then snd kv else "Not provided").

Lemma keys_normalised (d : dict string) : keys (map normalised d) = keys d.
Proof. unfold keys. rewrite map_map. reflexivity. Qed.

(** The dictionary of the handler, in closed form. *)
Lemma relayed_data_items fields now :
  relayed_data fields now
  = set (map normalised (form_items fields)) "timestamp" (isoformat now).
Proof.
  unfold relayed_data. f_equal.
  rewrite (fill_from_items (fun v => if nonempty v then v else "Not provided")).
  - reflexivity.
  - simpl. apply of_pairs_keys_distinct.
Qed.

Definition formatted_rows (form_data : dict string) : list (string * string) :=
  map (fun kv => (title (replace_underscores (fst kv)), snd kv)) form_data.

Lemma table_rows_map (form_data : dict string) (rows : list (string * string)) :
  fold_left
    (fun rows kv => rows ++ [(title (replace_underscores (fst kv)), snd kv)])
    form_data rows
  = rows ++ formatted_rows form_data.
Proof.
  revert rows. induction form_data as [|kv d IH]; intro rows; simpl.
  - rewrite app_nil_r. reflexivity.
  - rewrite IH, <- app_assoc. reflexivity.
Qed.

(** The message send_email builds. *)
Definition message_for (subject : string) (form_data : dict string)
           (now : datetime) : message :=
  mkMessage "akash.yadavv181198@gmail.com" "support@aadhaarcapital.com"
            subject (formatted_rows form_data) (strftime now).

Definition ok {A} (c : exc A) : bool := negb (raises c).

Section Session.

Variable EMAIL_CONFIG : email_config.
Variable smtp : smtp_service.
Variable clock : nat -> datetime.

(** The server accepts the message: connection, STARTTLS, login and send
    go through, and there is a password to log in with. *)
Definition accepted (msg : message) : bool :=
  ok (connect smtp (smtp_server EMAIL_CONFIG) (smtp_port EMAIL_CONFIG)) &&
  ok (starttls smtp) &&
  nonempty (password EMAIL_CONFIG) &&
  ok (login smtp (email EMAIL_CONFIG) (password EMAIL_CONFIG)) &&
  ok (send_message smtp msg).

(** The whole session goes through, the closing [quit] included. *)
Definition completed (msg : message) : bool :=
  accepted msg && ok (quit smtp).

Lemma send_email_outcome subject form_data w :
  let msg := message_for subject form_data (clock (ticks w)) in
  send_email EMAIL_CONFIG smtp clock subject form_data w
  = (Returns (completed msg),
     mkWorld (S (ticks w))
             (outbox w ++ (if accepted msg then [msg] else []))
             (sheet w)).
Proof.
  cbv zeta. unfold send_email, completed, accepted, ok, message_for, items.
  rewrite table_rows_map. cbn [app].
  unfold etry, ebind, datetime_now, lift, deliver, eret.
  cbn [ticks outbox sheet].
  destruct (connect smtp (smtp_server EMAIL_CONFIG) (smtp_port EMAIL_CONFIG));
    cbn [raises negb andb]; [|rewrite app_nil_r; reflexivity].
  destruct (starttls smtp); cbn [raises negb andb];
    [|rewrite app_nil_r; reflexivity].
  destruct (nonempty (password EMAIL_CONFIG)); cbn [raises negb andb];
    [|rewrite app_nil_r; reflexivity].
  destruct (login smtp (email EMAIL_CONFIG) (password EMAIL_CONFIG));
    cbn [raises negb andb]; [|rewrite app_nil_r; reflexivity].
  destruct (send_message smtp _);
    cbn [raises negb andb ticks outbox sheet]; [|rewrite app_nil_r; reflexivity].
  destruct (quit smtp); reflexivity.
Qed.

(** The handler, in closed form: three readings of the clock, one call of
    send_email, and the response. *)
Lemma submit_form_outcome fields w :
  let form_data := relayed_data fields (clock (ticks w)) in
  let subject := get_default form_data "subject" "Aadhar Capital Website Enquiry" in
  let msg := message_for subject form_data (clock (S (ticks w))) in
  submit_form EMAIL_CONFIG smtp clock (Returns fields) w
  = (Returns (OK [ ("success", JBool true);
                   ("message", JStr "Form submitted successfully");
                   ("email_sent", JBool (completed msg));
                   ("timestamp", JStr (isoformat (clock (S (S (ticks w))))));
                   ("data", JObj form_data) ]),
     mkWorld (S (S (S (ticks w))))
             (outbox w ++ (if accepted msg then [msg] else []))
             (sheet w)).
Proof.
  cbv zeta. unfold submit_form, etry, ebind, lift.
  unfold datetime_now at 1. cbn [ticks outbox sheet].
  rewrite send_email_outcome. cbn [ticks outbox sheet].
  unfold datetime_now, eret. cbn [ticks outbox sheet].
  reflexivity.
Qed.

(** A body that cannot be read as a form: the handler answers 500 and has
    done nothing. *)
Lemma submit_form_unparsed (m : string) (w : world) :
  submit_form EMAIL_CONFIG smtp clock (Raises m) w
  = (Returns (HTTPException 500 ("Failed to submit form: " ++ m)), w).
Proof. reflexivity. Qed.

End Session.

(** *** Empty values and the outcome of the session *)

Lemma relayed_data_get fields now key :
  key <> "timestamp" ->
  get (relayed_data fields now) key
  = option_map (fun v => if nonempty v then v else "Not provided")
               (get (form_items fields) key).
Proof.
  intro Hk. rewrite relayed_data_items, get_set.
  destruct (String.eqb "timestamp" key) eqn:E.
  - apply String.eqb_eq in E. congruence.
  - apply (get_map_values (fun v => if nonempty v then v else "Not provided")).
Qed.

Lemma relayed_data_timestamp fields now :
  get (relayed_data fields now) "timestamp" = Some (isoformat now).
Proof. rewrite relayed_data_items, get_set. reflexivity. Qed.








(** *** The spreadsheet is out of the handler's reach *)

(** C9: a request leaves the spreadsheet as it was, in every world,
    whatever its body and whatever the SMTP server does.  The response to a
    body read as a form has the five keys [success], [message],
    [email_sent], [timestamp] and [data], and no [sheet_updated]; the
    response to any other body is the HTTP 500 of the handler, which has no
    body object at all. *)
Theorem submit_form_leaves_sheet
        (EMAIL_CONFIG : email_config) (smtp : smtp_service)
        (clock : nat -> datetime) (form : exc (list (string * string)))
        (fields : list (string * string)) (w : world) :
  sheet (snd (submit_form EMAIL_CONFIG smtp clock form w)) = sheet w /\
  sheet (snd (submit_form EMAIL_CONFIG smtp clock (Returns fields) w)) = sheet w /\
  (exists body,
      fst (submit_form EMAIL_CONFIG smtp clock (Returns fields) w)
      = Returns (OK body) /\
      keys body = ["success"; "message"; "email_sent"; "timestamp"; "data"] /\
      get body "sheet_updated" = None) /\
  (forall m,
      fst (submit_form EMAIL_CONFIG smtp clock (Raises m) w)
      = Returns (HTTPException 500 ("Failed to submit form: " ++ m))).
Proof.
  split.
  { destruct form as [fs|m].
    - rewrite submit_form_outcome. reflexivity.
    - rewrite submit_form_unparsed. reflexivity. }
  rewrite submit_form_outcome. cbn [fst snd sheet].
  split; [reflexivity|].
  split.
  { eexists. split; [reflexivity|]. split; reflexivity. }
  intro m. rewrite submit_form_unparsed. reflexivity.
Qed.

(** *** The timestamp is the server's *)

(** The submission with the value [v] in place of whatever the client sent
    as [timestamp]. *)
Definition override (v : string) (kv : string * string) : string * string :=
  if String.eqb (fst kv) "timestamp" then (fst kv, v) else kv.

Definition with_client_timestamp (v : string) (fields : list (string * string))
  : list (string * string) :=
  map (override v) fields.

Lemma override_fst v kv : fst (override v kv) = fst kv.
Proof. unfold override. destruct (String.eqb (fst kv) "timestamp"); reflexivity. Qed.

Lemma set_override x (d : dict string) k y y' :
  (k = "timestamp" -> y = x) -> (k <> "timestamp" -> y = y') ->
  set (map (override x) d) k y = map (override x) (set d k y').
Proof.
  intros Hts Hother.
  assert (Hnew : (k, y) = override x (k, y')).
  { unfold override. cbn [fst]. destruct (String.eqb k "timestamp") eqn:E.
    - apply String.eqb_eq in E. rewrite (Hts E). reflexivity.
    - apply String.eqb_neq in E. rewrite (Hother E). reflexivity. }
  induction d as [|[k0 v0] d IH]; simpl.
  - rewrite Hnew. reflexivity.
  - pose proof (override_fst x (k0, v0)) as Hf. cbn [fst] in Hf.
    destruct (override x (k0, v0)) as [k1 v1] eqn:Ho. cbn [fst] in Hf. subst k1.
    destruct (String.eqb k0 k) eqn:E; simpl.
    + apply String.eqb_eq in E. subst k0. rewrite Hnew. reflexivity.
    + rewrite Ho, IH. reflexivity.
Qed.

Lemma of_pairs_override v (fields : list (string * string)) :
  of_pairs (map (override v) fields) = map (override v) (of_pairs fields).
Proof.
  unfold of_pairs.
  assert (G : forall acc,
    fold_left (fun d kv => set d (fst kv) (snd kv)) (map (override v) fields)
              (map (override v) acc)
    = map (override v)
          (fold_left (fun d kv => set d (fst kv) (snd kv)) fields acc)).
  { induction fields as [|kv fields IH]; intro acc; simpl; [reflexivity|].
    rewrite <- IH. f_equal. rewrite override_fst.
    apply set_override; unfold override; intro H.
    - rewrite H, String.eqb_refl. reflexivity.
    - apply String.eqb_neq in H. rewrite H. reflexivity. }
  apply (G []).
Qed.

Lemma normalised_override v (d : dict string) :
  map normalised (map (override v) d)
  = map (override (if nonempty v then v else "Not provided")) (map normalised d).
Proof.
  rewrite !map_map. apply map_ext. intros [k x].
  unfold normalised, override. cbn [fst snd].
  destruct (String.eqb k "timestamp"); reflexivity.
Qed.

Lemma override_without_timestamp x (d : dict string) :
  ~ In "timestamp" (keys d) -> map (override x) d = d.
Proof.
  induction d as [|[k v] d IH]; simpl; [reflexivity|].
  intro H. rewrite IH by tauto. unfold override. cbn [fst].
  destruct (String.eqb k "timestamp") eqn:E; [|reflexivity].
  apply String.eqb_eq in E. tauto.
Qed.

Lemma set_timestamp_override x y (d : dict string) :
  NoDup (keys d) ->
  set (map (override x) d) "timestamp" y = set d "timestamp" y.
Proof.
  induction d as [|[k v] d IH]; simpl; [reflexivity|].
  intro H. inversion H as [|? ? Hk Hd]; subst.
  unfold override at 1. cbn [fst].
  destruct (String.eqb k "timestamp") eqn:E; simpl; rewrite E.
  - apply String.eqb_eq in E. subst k.
    rewrite override_without_timestamp by exact Hk. reflexivity.
  - rewrite IH by exact Hd. reflexivity.
Qed.

Lemma relayed_data_ignores_client_timestamp v fields now :
  relayed_data (with_client_timestamp v fields) now = relayed_data fields now.
Proof.
  rewrite !relayed_data_items. unfold with_client_timestamp, form_items, items.
  rewrite of_pairs_override, normalised_override.
  apply set_timestamp_override.
  rewrite keys_normalised. apply of_pairs_keys_distinct.
Qed.

(** C10: the [timestamp] key of the data that is returned and relayed holds
    the time the server read on entry, once; the row [Timestamp] of the
    e-mail holds it too, and every message the submission adds to the
    outbox has the relayed data as rows; and the whole outcome, response
    and world, is the same whatever value the client submitted under
    [timestamp]. *)
Theorem submit_form_server_timestamp
        (EMAIL_CONFIG : email_config) (smtp : smtp_service)
        (clock : nat -> datetime) (fields : list (string * string)) (w : world) :
  (exists body form_data,
      fst (submit_form EMAIL_CONFIG smtp clock (Returns fields) w) = Returns (OK body) /\
      get body "data" = Some (JObj form_data) /\
      get form_data "timestamp" = Some (isoformat (clock (ticks w))) /\
      NoDup (keys form_data) /\
      In ("Timestamp", isoformat (clock (ticks w))) (formatted_rows form_data) /\
      forall msg,
        In msg (outbox (snd (submit_form EMAIL_CONFIG smtp clock (Returns fields) w))) ->
        In msg (outbox w) \/ table_rows msg = formatted_rows form_data) /\
  (forall v,
      submit_form EMAIL_CONFIG smtp clock (Returns (with_client_timestamp v fields)) w
      = submit_form EMAIL_CONFIG smtp clock (Returns fields) w).
Proof.
  split.
  - rewrite submit_form_outcome. cbn [fst snd outbox].
    eexists. eexists. split; [reflexivity|]. split; [reflexivity|].
    split; [apply relayed_data_timestamp|].
    split.
    { rewrite relayed_data_items. apply set_keeps_keys_distinct.
      rewrite keys_normalised. apply of_pairs_keys_distinct. }
    split.
    { pose proof (relayed_data_timestamp fields (clock (ticks w))) as Hg.
      revert Hg. generalize (relayed_data fields (clock (ticks w))).
      intro d. induction d as [|[k v] d IH]; simpl; [discriminate|].
      destruct (String.eqb k "timestamp") eqn:E.
      - intro H. inversion H; subst v. apply String.eqb_eq in E. subst k.
        left. reflexivity.
      - intro H. right. apply IH. exact H. }
    intros msg Hin. apply in_app_iff in Hin. destruct Hin as [Hin|Hin]; [tauto|].
    right. destruct (accepted _ _ _); simpl in Hin; [|tauto].
    destruct Hin as [E|[]]. subst msg. reflexivity.
  - intro v. rewrite !submit_form_outcome.
    rewrite relayed_data_ignores_client_timestamp. reflexivity.
Qed.

Example submit_form_timestamp_overwritten :
  relayed_data [("timestamp", "1999-01-01"); ("name", "Jo"); ("message", "")]
               (mkDatetime 2026 11 3 9 5 7 0)
  = [ ("timestamp", "2026-11-03T09:05:07"); ("name", "Jo");
      ("message", "Not provided") ].
Proof. reflexivity. Qed.

End FormFacts.

(** * Further properties *)

(** ** The screener: which rows are returned *)

Module ScreenerSelection.
Import Screener ScreenerFacts.

Local Open Scope Q_scope.

Lemma insert_row_permutation (asc : bool) (e : equity) (l : list equity) :
  Permutation (insert_row asc e l) (e :: l).
Proof.
  induction l as [|x l IH]; simpl; [apply Permutation_refl|].
  destruct (before asc e x); [apply Permutation_refl|].
  eapply Permutation_trans; [apply perm_skip; exact IH | apply perm_swap].
Qed.

Lemma sort_values_permutation (asc : bool) (l : list equity) :
  Permutation (sort_values asc l) l.
Proof.
  induction l as [|x l IH]; simpl; [apply Permutation_refl|].
  eapply Permutation_trans; [apply insert_row_permutation|].
  apply perm_skip. exact IH.
Qed.

Lemma ordered_transitive (asc : bool) : Relations_1.Transitive (ordered asc).
Proof.
  intros a b c. unfold ordered, before. destruct asc; intros H1 H2;
    apply Qle_bool_iff in H1; apply Qle_bool_iff in H2; apply Qle_bool_iff;
    eapply Qle_trans; eassumption.
Qed.

Lemma strongly_sorted_split {A} (R : A -> A -> Prop) (n : nat) (l : list A) :
  StronglySorted R l ->
  forall a b, In a (firstn n l) -> In b (skipn n l) -> R a b.
Proof.
  revert l. induction n as [|n IH]; intros l S a b Ha Hb; simpl in *; [tauto|].
  destruct l as [|x l]; simpl in *; [tauto|].
  inversion S as [|? ? Sl Hall]; subst.
  destruct Ha as [Ha|Ha].
  - subst a. rewrite Forall_forall in Hall. apply Hall.
    rewrite <- (firstn_skipn n l). apply in_app_iff. right. exact Hb.
  - eapply IH; eassumption.
Qed.

(** X1: when the endpoint answers, the returned records are those of the
    five rows (all of them when there are fewer) with the largest percent
    change for gainers, the smallest for losers: the rows of the answer
    split into the returned ones and the rest, and no row of the rest beats
    a returned one. *)
Theorem fetch_top_stocks_extremes
        (get_data : list query_filter -> exc (list equity))
        (region_filter : option string) (gainers : bool) (rows : list equity) :
  get_data (build_filters region_filter gainers) = Returns rows ->
  exists top rest,
    fetch_top_stocks get_data region_filter gainers = Returns (map to_record top) /\
    Permutation (top ++ rest) rows /\
    List.length top = Nat.min 5 (List.length rows) /\
    forall a b, In a top -> In b rest ->
                in_direction gainers (to_record a) (to_record b).
Proof.
  intro H.
  exists (firstn 5 (sort_values (negb gainers) rows)),
         (skipn 5 (sort_values (negb gainers) rows)).
  split.
  { rewrite fetch_top_stocks_selected, selected_unfold, H. reflexivity. }
  split.
  { rewrite firstn_skipn. apply sort_values_permutation. }
  split.
  { rewrite length_firstn.
    rewrite (Permutation_length (sort_values_permutation (negb gainers) rows)).
    reflexivity. }
  intros a b Ha Hb.
  assert (Hab : ordered (negb gainers) a b).
  { eapply strongly_sorted_split; [|exact Ha|exact Hb].
    apply Sorted_StronglySorted; [apply ordered_transitive|].
    apply sort_values_sorted. }
  unfold ordered, before in Hab. unfold in_direction.
  destruct gainers; simpl in *; apply Qle_bool_iff; exact Hab.
Qed.

(** Seven gainers, of which five are returned. *)
Definition seven_gainers : list equity :=
  [ mkEquity "A" 20 4 5000 3e9 "us"; mkEquity "B" 20 9 5000 3e9 "us";
    mkEquity "C" 20 6 5000 3e9 "us"; mkEquity "D" 20 12 5000 3e9 "us";
    mkEquity "E" 20 5 5000 3e9 "us"; mkEquity "F" 20 7 5000 3e9 "us";
    mkEquity "G" 20 8 5000 3e9 "us" ].

Lemma fetch_top_stocks_extremes_witness :
  exists top rest,
    fetch_top_stocks (screen seven_gainers) None true = Returns (map to_record top) /\
    Permutation (top ++ rest) seven_gainers /\
    List.length top = Nat.min 5 (List.length seven_gainers) /\
    forall a b, In a top -> In b rest ->
                in_direction true (to_record a) (to_record b).
Proof.
  apply (fetch_top_stocks_extremes (screen seven_gainers) None true seven_gainers).
  reflexivity.
Defined.

Example fetch_top_stocks_seven_gainers :
  fetch_top_stocks (screen seven_gainers) None true
  = Returns [ mkRow "D" 20 12 5000; mkRow "B" 20 9 5000; mkRow "G" 20 8 5000;
              mkRow "F" 20 7 5000; mkRow "C" 20 6 5000 ].
Proof. reflexivity. Qed.

End ScreenerSelection.

(** ** Index snapshots: every shape of the answer *)

Module IndicesShapes.
Import PyDict PyStr Indices IndicesFacts.

Local Open Scope Q_scope.

(** The percent change of lines 152 and 156, with the real division. *)
Definition percent_change (prev_close current_price : Q) : Q :=
  if Qeq_bool prev_close 0 then 0
  else fmul (fdiv (fsub current_price prev_close) prev_close) 100.

Lemma snapshot_for_one_bar true_divide index_name symbol b vc :
  snapshot_for true_divide index_name symbol (Returns (mkFrame [b] vc))
  = mkSnapshot symbol (title (replace_underscores index_name))
               (Some (round2 (Close b))) (Some (round2 (Close b)))
               (Some 0) (Some 0)
               (Some (if vc then Volume b else 0%Z)) live_data.
Proof. destruct vc; reflexivity. Qed.

Lemma snapshot_for_bars_divide index_name symbol pre b_prev b_cur vc :
  snapshot_for divide index_name symbol
               (Returns (mkFrame (pre ++ [b_prev; b_cur]) vc))
  = mkSnapshot symbol (title (replace_underscores index_name))
               (Some (round2 (Close b_cur)))
               (Some (round2 (Close b_prev)))
               (Some (round2 (fsub (Close b_cur) (Close b_prev))))
               (Some (round2 (percent_change (Close b_prev) (Close b_cur))))
               (Some (if vc then Volume b_cur else 0%Z))
               live_data.
Proof.
  rewrite snapshot_for_two_bars. unfold divide, percent_change.
  destruct (Qeq_bool (Close b_prev) 0); reflexivity.
Qed.

Lemma rows_shape (l : list bar) :
  l = [] \/ (exists b, l = [b]) \/ (exists pre b_prev b_cur, l = pre ++ [b_prev; b_cur]).
Proof.
  destruct l as [|x l]; [left; reflexivity | right].
  destruct (exists_last (l := x :: l)) as (l1 & b & E); [discriminate|].
  rewrite E. destruct l1 as [|y l1]; [left; exists b; reflexivity | right].
  destruct (exists_last (l := y :: l1)) as (l2 & b' & E'); [discriminate|].
  rewrite E'. exists l2, b', b. rewrite <- app_assoc. reflexivity.
Qed.

(** X2: the status of an entry is decided by the answer to the request,
    with the real division: [error] when the request raises, [no_data] when
    the frame has no bar, [live_data] for every frame with a bar.  No
    content of a frame leads to [error]. *)
Theorem index_status_by_answer
        (history : string -> exc data_frame) (index_name symbol : string) :
  In (index_name, symbol) INDIAN_INDICES ->
  exists d snap,
    fetch_indian_indices history divide = Returns d /\
    get d index_name = Some snap /\
    sn_status snap
    = match history symbol with
      | Raises _ => error
      | Returns hist => if empty hist then no_data else live_data
      end.
Proof.
  intro Hin.
  destruct (fetch_indian_indices_get history divide _ _ Hin) as (d & Hd & Hg).
  exists d. eexists. split; [exact Hd|]. split; [exact Hg|].
  destruct (history symbol) as [[rows vc]|m]; [|reflexivity].
  destruct (rows_shape rows) as [E|[(b & E)|(pre & bp & bc & E)]]; subst rows.
  - reflexivity.
  - rewrite snapshot_for_one_bar. reflexivity.
  - rewrite snapshot_for_bars_divide. unfold empty. cbn [rows sn_status].
    destruct pre; reflexivity.
Qed.

Definition mixed_history (s : string) : exc data_frame :=
  if String.eqb s "^NSEI" then Returns (mkFrame [mkBar 0 1; mkBar 0 2] true)
  else if String.eqb s "^BSESN" then Returns (mkFrame [] true)
  else if String.eqb s "^NSEBANK" then Raises "no connection"
  else Returns (mkFrame [mkBar (2345 # 10) 9] false).

Lemma index_status_by_answer_witness :
  exists d snap,
    fetch_indian_indices mixed_history divide = Returns d /\
    get d "nifty" = Some snap /\
    sn_status snap = live_data.
Proof.
  apply (index_status_by_answer mixed_history "nifty" "^NSEI").
  simpl. left. reflexivity.
Defined.

(** X3: a frame with a single bar gives an entry whose current price and
    previous close are both the rounded close of that bar, with change 0 and
    percent change 0, whatever the division would do. *)
Theorem single_bar_no_change
        (history : string -> exc data_frame) (true_divide : Q -> Q -> exc Q)
        (index_name symbol : string) (b : bar) (vc : bool) :
  In (index_name, symbol) INDIAN_INDICES ->
  history symbol = Returns (mkFrame [b] vc) ->
  exists d snap,
    fetch_indian_indices history true_divide = Returns d /\
    get d index_name = Some snap /\
    current_price snap = Some (round2 (Close b)) /\
    previous_close snap = Some (round2 (Close b)) /\
    change snap = Some 0 /\
    change_percent snap = Some 0 /\
    sn_status snap = live_data.
Proof.
  intros Hin Hh.
  destruct (fetch_indian_indices_get history true_divide _ _ Hin) as (d & Hd & Hg).
  exists d. eexists. split; [exact Hd|]. split; [exact Hg|].
  rewrite Hh, snapshot_for_one_bar. repeat split.
Qed.

Lemma single_bar_no_change_witness :
  exists d snap,
    fetch_indian_indices mixed_history faulting_division = Returns d /\
    get d "midcap_nifty" = Some snap /\
    current_price snap = Some (round2 (2345 # 10)) /\
    previous_close snap = Some (round2 (2345 # 10)) /\
    change snap = Some 0 /\
    change_percent snap = Some 0 /\
    sn_status snap = live_data.
Proof.
  apply (single_bar_no_change mixed_history faulting_division
           "midcap_nifty" "NIFTYMIDCAP50.NS" (mkBar (2345 # 10) 9) false).
  - simpl. right. right. right. left. reflexivity.
  - reflexivity.
Defined.

(** X4: for every frame with a bar, the current price is the rounded close
    of the last bar and the volume is the volume of the last bar, or 0 when
    the frame has no volume column. *)
Theorem last_bar_price_and_volume
        (history : string -> exc data_frame) (index_name symbol : string)
        (pre : list bar) (b : bar) (vc : bool) :
  In (index_name, symbol) INDIAN_INDICES ->
  history symbol = Returns (mkFrame (pre ++ [b]) vc) ->
  exists d snap,
    fetch_indian_indices history divide = Returns d /\
    get d index_name = Some snap /\
    current_price snap = Some (round2 (Close b)) /\
    volume snap = Some (if vc then Volume b else 0%Z).
Proof.
  intros Hin Hh.
  destruct (fetch_indian_indices_get history divide _ _ Hin) as (d & Hd & Hg).
  exists d. eexists. split; [exact Hd|]. split; [exact Hg|].
  destruct pre as [|x pre].
  - cbn [app] in Hh. rewrite Hh, snapshot_for_one_bar. split; reflexivity.
  - destruct (exists_last (l := x :: pre)) as (l2 & b' & E); [discriminate|].
    rewrite E, <- app_assoc in Hh. cbn [app] in Hh.
    rewrite Hh, snapshot_for_bars_divide. split; reflexivity.
Qed.

Lemma last_bar_price_and_volume_witness :
  exists d snap,
    fetch_indian_indices mixed_history divide = Returns d /\
    get d "midcap_nifty" = Some snap /\
    current_price snap = Some (round2 (2345 # 10)) /\
    volume snap = Some 0%Z.
Proof.
  apply (last_bar_price_and_volume mixed_history "midcap_nifty" "NIFTYMIDCAP50.NS"
           [] (mkBar (2345 # 10) 9) false).
  - simpl. right. right. right. left. reflexivity.
  - reflexivity.
Defined.

(** X5: every entry carries the ticker symbol and the display name of its
    index, whatever the request did: the name is the key with underscores
    replaced by spaces, in title case. *)
Theorem entry_symbol_and_name
        (history : string -> exc data_frame) (true_divide : Q -> Q -> exc Q)
        (index_name symbol : string) :
  In (index_name, symbol) INDIAN_INDICES ->
  exists d snap,
    fetch_indian_indices history true_divide = Returns d /\
    get d index_name = Some snap /\
    sn_symbol snap = symbol /\
    sn_name snap = title (replace_underscores index_name) /\
    In (sn_name snap) ["Nifty"; "Sensex"; "Banknifty"; "Midcap Nifty"]%string.
Proof.
  intro Hin.
  destruct (fetch_indian_indices_get history true_divide _ _ Hin) as (d & Hd & Hg).
  exists d. eexists. split; [exact Hd|]. split; [exact Hg|].
  assert (Hid : sn_symbol (snapshot_for true_divide index_name symbol (history symbol))
                = symbol /\
                sn_name (snapshot_for true_divide index_name symbol (history symbol))
                = title (replace_underscores index_name)).
  { destruct (history symbol) as [[rows vc]|m]; [|split; reflexivity].
    destruct (rows_shape rows) as [E|[(b & E)|(pre & bp & bc & E)]]; subst rows.
    - split; reflexivity.
    - rewrite snapshot_for_one_bar. split; reflexivity.
    - rewrite snapshot_for_two_bars.
      destruct (if negb (Qeq_bool (Close bp) 0)
                then bind (true_divide (fsub (Close bc) (Close bp)) (Close bp))
                          (fun q => ret (fmul q 100))
                else ret 0); split; reflexivity. }
  destruct Hid as (Hs & Hn). split; [exact Hs|]. split; [exact Hn|].
  rewrite Hn. simpl in Hin.
  destruct Hin as [H|[H|[H|[H|[]]]]]; inversion H; subst; simpl; tauto.
Qed.

Lemma entry_symbol_and_name_witness :
  exists d snap,
    fetch_indian_indices mixed_history faulting_division = Returns d /\
    get d "banknifty" = Some snap /\
    sn_symbol snap = "^NSEBANK"%string /\
    sn_name snap = title (replace_underscores "banknifty") /\
    In (sn_name snap) ["Nifty"; "Sensex"; "Banknifty"; "Midcap Nifty"]%string.
Proof.
  apply (entry_symbol_and_name mixed_history faulting_division "banknifty" "^NSEBANK").
  simpl. right. right. left. reflexivity.
Defined.

End IndicesShapes.

(** ** News: order, size and what is read *)

Module NewsShape.
Import News NewsFacts PyDictFacts.

(** The answer cut down to its first article. *)
Definition top_only (answer : exc (list article)) : exc (list article) :=
  match answer with
  | Returns articles => Returns (firstn 1 articles)
  | Raises m => Raises m
  end.

Lemma after_symbol_length news st symbol :
  (List.length (news_results (after_symbol news st symbol))
   <= S (List.length (news_results st)))%nat.
Proof.
  unfold after_symbol. destruct (top_article (news symbol)); [|lia].
  unfold add_article. destruct (negb (mem (link_of a) (seen_links (counted st))));
    cbn [news_results counted]; [rewrite length_app; simpl; lia | lia].
Qed.

Lemma final_length news symbols st :
  (List.length (news_results (fold_left (after_symbol news) symbols st))
   <= List.length (news_results st) + List.length symbols)%nat.
Proof.
  revert st. induction symbols as [|s symbols IH]; intro st; simpl; [lia|].
  specialize (IH (after_symbol news st s)).
  pose proof (after_symbol_length news st s). lia.
Qed.

Lemma fold_left_agree {A B} (f g : A -> B -> A) (l : list B) (a : A) :
  (forall x y, f x y = g x y) -> fold_left f l a = fold_left g l a.
Proof.
  intro H. revert a. induction l as [|y l IH]; intro a; simpl; [reflexivity|].
  rewrite H. apply IH.
Qed.

(** X8: fetch_indian_news returns at most one item per symbol of the list,
    and reads only the first article of each answer: cutting every answer
    down to its first article gives the same result. *)
Theorem fetch_indian_news_top_article_only
        (news : string -> exc (list article)) (symbols : list string) :
  exists items,
    fetch_indian_news news symbols = Returns items /\
    (List.length items <= List.length symbols)%nat /\
    fetch_indian_news (fun s => top_only (news s)) symbols = Returns items.
Proof.
  exists (news_results (final_state news symbols)).
  split; [apply fetch_indian_news_returns|].
  split; [apply (final_length news symbols (mkState [] [] 0))|].
  rewrite fetch_indian_news_returns. unfold final_state. f_equal. f_equal.
  apply fold_left_agree. intros st s. unfold after_symbol.
  destruct (news s) as [[|a rest]|m]; reflexivity.
Qed.

(** The item a symbol contributes when nothing hides it. *)
Definition top_item (news : string -> exc (list article)) (symbol : string)
  : option news_item :=
  option_map (item_of symbol) (top_article (news symbol)).

Definition top_link (news : string -> exc (list article)) (symbol : string)
  : option string :=
  option_map link_of (top_article (news symbol)).

Lemma distinct_links_all_kept news symbols :
  (forall s, In s symbols -> top_article (news s) <> None) ->
  NoDup (map (top_link news) symbols) ->
  map Some (news_results (final_state news symbols)) = map (top_item news) symbols.
Proof.
  induction symbols as [|s symbols IH] using rev_ind; intros Hall Hnd.
  - reflexivity.
  - rewrite map_app in Hnd. simpl in Hnd.
    apply NoDup_remove in Hnd. rewrite app_nil_r in Hnd.
    destruct Hnd as (Hnd' & Hfresh).
    assert (Hall' : forall s', In s' symbols -> top_article (news s') <> None).
    { intros s' Hs'. apply Hall. apply in_app_iff. left. exact Hs'. }
    specialize (IH Hall' Hnd').
    pose proof (invariant_final news symbols) as [Hseen _ _ Hfirst].
    unfold final_state in *. rewrite fold_left_app. cbn [fold_left].
    set (st := fold_left (after_symbol news) symbols (mkState [] [] 0)) in *.
    unfold after_symbol.
    destruct (top_article (news s)) as [a|] eqn:Htop.
    + unfold add_article. cbn [seen_links counted].
      assert (Hmem : mem (link_of a) (seen_links st) = false).
      { destruct (mem (link_of a) (seen_links st)) eqn:E; [|reflexivity].
        exfalso. apply mem_In in E. apply Hseen in E.
        apply in_map_iff in E. destruct E as (item & Hlink & Hitem).
        destruct (Hfirst item Hitem) as (pre & s0 & post & a0 & Hp & Ha0 & Hi & _).
        apply Hfresh. apply in_map_iff. exists s0. split.
        - unfold top_link. rewrite Ha0, Htop. cbn [option_map].
          rewrite <- Hlink, Hi. reflexivity.
        - rewrite Hp. apply in_app_iff. right. left. reflexivity. }
      rewrite Hmem. cbn [negb news_results counted].
      rewrite !map_app, IH. cbn [map]. unfold top_item. rewrite Htop. reflexivity.
    + exfalso. apply (Hall s); [apply in_app_iff; right; left; reflexivity | exact Htop].
Qed.

(** X9: when every request of the list answers with at least one article
    and no two symbols have the same top link, the result has exactly one
    item per symbol, in the order of the list, each built from the top
    article of its symbol. *)
Theorem fetch_indian_news_one_item_per_symbol
        (news : string -> exc (list article)) (symbols : list string) :
  (forall s, In s symbols -> top_article (news s) <> None) ->
  NoDup (map (top_link news) symbols) ->
  exists items,
    fetch_indian_news news symbols = Returns items /\
    map Some items = map (top_item news) symbols /\
    List.length items = List.length symbols.
Proof.
  intros Hall Hnd. exists (news_results (final_state news symbols)).
  split; [apply fetch_indian_news_returns|].
  pose proof (distinct_links_all_kept news symbols Hall Hnd) as H.
  split; [exact H|].
  apply (f_equal (@List.length _)) in H. rewrite !length_map in H. exact H.
Qed.

(** Each symbol has its own article. *)
Definition own_news (symbol : string) : exc (list article) :=
  Returns [ErrorFacts.sample_article ("https://example.com/" ++ symbol)].

Lemma fetch_indian_news_one_item_per_symbol_witness :
  exists items,
    fetch_indian_news own_news ["TCS.NS"; "INFY.NS"] = Returns items /\
    map Some items = map (top_item own_news) ["TCS.NS"; "INFY.NS"] /\
    List.length items = List.length ["TCS.NS"; "INFY.NS"].
Proof.
  apply (fetch_indian_news_one_item_per_symbol own_news ["TCS.NS"; "INFY.NS"]).
  - intros s Hs. discriminate.
  - simpl. repeat constructor; simpl; intuition discriminate.
Defined.

End NewsShape.

(** ** The e-mail session *)

Module MailFacts.
Import PyDict PyStr PyDictFacts FormRelay FormFacts.

(** X10: send_email never raises, reads the clock once and leaves the
    spreadsheet alone.  It returns false and delivers nothing when the
    password is empty or when connecting, STARTTLS, login or the send
    raises; when it returns true the message is the one new entry of the
    outbox. *)
Theorem send_email_delivery
        (EMAIL_CONFIG : email_config) (smtp : smtp_service)
        (clock : nat -> datetime) (subject : string) (form_data : dict string)
        (w : world) :
  let msg := message_for subject form_data (clock (ticks w)) in
  exists sent w',
    send_email EMAIL_CONFIG smtp clock subject form_data w = (Returns sent, w') /\
    ticks w' = S (ticks w) /\
    sheet w' = sheet w /\
    (sent = true -> outbox w' = outbox w ++ [msg]) /\
    (password EMAIL_CONFIG = "" \/
     raises (connect smtp (smtp_server EMAIL_CONFIG) (smtp_port EMAIL_CONFIG)) = true \/
     raises (starttls smtp) = true \/
     raises (login smtp (email EMAIL_CONFIG) (password EMAIL_CONFIG)) = true \/
     raises (send_message smtp msg) = true ->
     sent = false /\ outbox w' = outbox w).
Proof.
  cbv zeta. eexists. eexists.
  split; [apply send_email_outcome|]. cbn [ticks sheet outbox].
  split; [reflexivity|]. split; [reflexivity|].
  unfold completed, accepted, ok.
  split.
  - intro H. apply andb_true_iff in H. destruct H as [H _]. rewrite H. reflexivity.
  - intros [H|[H|[H|[H|H]]]]; rewrite H; cbn [nonempty String.eqb negb];
      rewrite ?andb_false_r; cbn [andb]; rewrite app_nil_r; split; reflexivity.
Qed.

(** X11: the value returned is not the fate of the message.  When the
    server accepts the message and then fails on [quit], send_email returns
    false although the message was delivered. *)
Theorem send_email_false_after_delivery
        (EMAIL_CONFIG : email_config) (smtp : smtp_service)
        (clock : nat -> datetime) (subject : string) (form_data : dict string)
        (w : world) :
  let msg := message_for subject form_data (clock (ticks w)) in
  accepted EMAIL_CONFIG smtp msg = true ->
  raises (quit smtp) = true ->
  fst (send_email EMAIL_CONFIG smtp clock subject form_data w) = Returns false /\
  outbox (snd (send_email EMAIL_CONFIG smtp clock subject form_data w))
  = outbox w ++ [msg].
Proof.
  cbv zeta. intros Ha Hq. rewrite send_email_outcome. cbn [fst snd outbox].
  unfold completed, ok. rewrite Ha, Hq. split; reflexivity.
Qed.

Definition sample_config : email_config :=
  mkEmailConfig "smtp.gmail.com" 587 "office@example.com" "app-password".

(** A server that accepts everything and then drops the connection. *)
Definition dropping_server : smtp_service :=
  mkSmtp (fun _ _ => Returns tt) (Returns tt) (fun _ _ => Returns tt)
         (fun _ => Returns tt) (Raises "connection closed").

Definition noon (n : nat) : datetime := mkDatetime 2026 11 3 12 0 n 0.

Lemma send_email_false_after_delivery_witness :
  fst (send_email sample_config dropping_server noon "Enquiry" [("name", "Jo")]
                  (mkWorld 0 [] []))
  = Returns false /\
  outbox (snd (send_email sample_config dropping_server noon "Enquiry"
                          [("name", "Jo")] (mkWorld 0 [] [])))
  = [] ++ [message_for "Enquiry" [("name", "Jo")] (noon 0)].
Proof.
  apply (send_email_false_after_delivery sample_config dropping_server noon
           "Enquiry" [("name", "Jo")] (mkWorld 0 [] [])); reflexivity.
Defined.

End MailFacts.

(** ** The spreadsheet: what a submission keeps and adds *)

Module SheetShape.
Import PyDict PyStr PyDictFacts FormRelay SheetFacts.

Definition new_fields (header : list string) (form_data : dict string) : list string :=
  filter (fun key => negb (existsb (String.eqb key) header)) (keys form_data).


(** X12: without usable credentials (no path, an empty path, a path that
    names no file) or with a spreadsheet that cannot be opened, the call
    returns false and changes nothing. *)
Theorem add_to_google_sheet_degrades
        (service_account_path : option string) (path_exists : string -> bool)
        (open_sheet : exc unit) (cell : Type) (numericise : string -> cell)
        (form_data : dict string) (w : world) :
  ~ configured service_account_path path_exists \/ raises open_sheet = true ->
  add_to_google_sheet service_account_path path_exists open_sheet
                      cell numericise form_data w
  = (Returns false, w).
Proof.
  intro H. unfold add_to_google_sheet.
  destruct service_account_path as [path|]; [|reflexivity].
  destruct (nonempty path && path_exists path) eqn:E; [|reflexivity].
  apply andb_true_iff in E. destruct E as (E1 & E2).
  destruct H as [H|H].
  - exfalso. apply H. exists path. repeat split; assumption.
  - destruct open_sheet; [discriminate H | reflexivity].
Qed.

Lemma add_to_google_sheet_degrades_witness :
  add_to_google_sheet (Some "") every_path_exists (Returns tt) string as_text
                      [("a", "1")] (mkWorld 0 [] [["a"]; ["7"]])
  = (Returns false, mkWorld 0 [] [["a"]; ["7"]]).
Proof.
  apply (add_to_google_sheet_degrades (Some "") every_path_exists (Returns tt)
           string as_text).
  left. intros (path & Hp & Hne & _). inversion Hp; subst path.
  vm_compute in Hne. discriminate Hne.
Defined.




Section Configured.

Variable cell : Type.
Variable numericise : string -> cell.
Variable service_account_path : option string.
Variable path_exists : string -> bool.
Hypothesis credentials : configured service_account_path path_exists.






(** X22: on a sheet whose first row, padded to the width of the sheet, has
    a cell twice (a repeated header, or two columns without a header), the
    call returns false and writes nothing, whatever is submitted. *)
Theorem add_to_google_sheet_unreadable_header (form_data : dict string) (w : world) :
  sheet w <> [] ->
  readable (sheet w) = false ->
  add_row cell numericise service_account_path path_exists form_data w
  = (Returns false, w).
Proof.
  intros Hsh Hread. apply add_row_unreadable; assumption.
Qed.




End Configured.


Lemma add_to_google_sheet_unreadable_header_witness :
  sample_add_row [("a", "1"); ("c", "3")] (mkWorld 0 [] [["a"; "a"]; ["7"; "8"]])
  = (Returns false, mkWorld 0 [] [["a"; "a"]; ["7"; "8"]]).
Proof.
  apply (add_to_google_sheet_unreadable_header string as_text sample_path
           every_path_exists sample_configured [("a", "1"); ("c", "3")]
           (mkWorld 0 [] [["a"; "a"]; ["7"; "8"]])).
  - discriminate.
  - reflexivity.
Defined.


Example add_to_google_sheet_twice :
  sheet (snd (sample_add_row [("a", "1"); ("c", "3")]
           (snd (sample_add_row [("a", "1"); ("c", "3")]
                                (mkWorld 0 [] [["a"]; ["7"]])))))
  = [["a"; "c"]; ["7"]; ["1"; "3"]; ["1"; "3"]].
Proof. reflexivity. Qed.

(** A data row wider than the header by two cells: the padded header has
    two empty cells and the client raises. *)
Example add_to_google_sheet_wide_row :
  sample_add_row [("a", "1")] (mkWorld 0 [] [["a"]; ["7"; "8"; "9"]])
  = (Returns false, mkWorld 0 [] [["a"]; ["7"; "8"; "9"]]).
Proof. reflexivity. Qed.

End SheetShape.

(** ** Form submissions: subject, keys and the health report *)

Module SubmitShape.
Import PyDict PyStr PyDictFacts FormRelay FormFacts HttpSurface.

Definition default_subject : string := "Aadhar Capital Website Enquiry".

(** The subject line the handler picks. *)
Definition subject_line (fields : list (string * string)) : string :=
  match get (form_items fields) "subject" with
  | None => default_subject
  | Some v => if nonempty v then v else "Not provided"
  end.

Lemma relayed_subject fields now :
  get_default (relayed_data fields now) "subject" default_subject
  = subject_line fields.
Proof.
  unfold get_default, subject_line.
  rewrite relayed_data_get by discriminate.
  destruct (get (form_items fields) "subject"); reflexivity.
Qed.

(** X16: the subject of the e-mail is the submitted [subject] field; the
    fixed default when no such field is submitted; and the literal
    [Not provided], not the default, when the field is submitted empty.
    Every message a submission adds to the outbox has that subject. *)
Theorem submit_form_subject
        (EMAIL_CONFIG : email_config) (smtp : smtp_service)
        (clock : nat -> datetime) (fields : list (string * string)) (w : world) :
  (forall msg,
      In msg (outbox (snd (submit_form EMAIL_CONFIG smtp clock (Returns fields) w))) ->
      In msg (outbox w) \/ msg_subject msg = subject_line fields) /\
  (get (form_items fields) "subject" = None ->
   subject_line fields = "Aadhar Capital Website Enquiry") /\
  (get (form_items fields) "subject" = Some "" ->
   subject_line fields = "Not provided") /\
  (forall v, v <> "" -> get (form_items fields) "subject" = Some v ->
             subject_line fields = v).
Proof.
  split.
  { intros msg Hin. rewrite submit_form_outcome in Hin. cbn [snd outbox] in Hin.
    apply in_app_iff in Hin. destruct Hin as [Hin|Hin]; [left; exact Hin|].
    right. destruct (accepted _ _ _); simpl in Hin; [|tauto].
    destruct Hin as [E|[]]. subst msg. cbn [msg_subject message_for].
    apply relayed_subject. }
  unfold subject_line.
  split; [intro H; rewrite H; reflexivity|].
  split; [intro H; rewrite H; reflexivity|].
  intros v Hv H. rewrite H. unfold nonempty.
  destruct (String.eqb v "") eqn:E; [|reflexivity].
  apply String.eqb_eq in E. contradiction.
Qed.

Lemma set_keys {V} (d : dict V) (k : string) (v : V) :
  keys (set d k v)
  = keys d ++ (if in_dec string_dec k (keys d) then [] else [k]).
Proof.
  destruct (in_dec string_dec k (keys d)) as [Hin|Hout].
  - rewrite set_old_key by exact Hin. rewrite app_nil_r. reflexivity.
  - rewrite set_new_key by exact Hout. unfold keys. rewrite map_app. reflexivity.
Qed.

(** X17: the data relayed and echoed has the submitted field names, each
    once, in the order of first appearance, followed by [timestamp] when
    the client sent no such field; a non-empty value other than the
    timestamp's is passed on unchanged, and no other key is invented. *)
Theorem submit_form_data_keys
        (EMAIL_CONFIG : email_config) (smtp : smtp_service)
        (clock : nat -> datetime) (fields : list (string * string)) (w : world) :
  exists body form_data,
    fst (submit_form EMAIL_CONFIG smtp clock (Returns fields) w) = Returns (OK body) /\
    get body "data" = Some (JObj form_data) /\
    keys form_data
    = keys (form_items fields)
      ++ (if in_dec string_dec "timestamp" (keys (form_items fields))
          then [] else ["timestamp"]) /\
    NoDup (keys (form_items fields)) /\
    (forall key, In key (keys (form_items fields)) <-> In key (map fst fields)) /\
    (forall key value,
        key <> "timestamp" -> value <> "" ->
        get (form_items fields) key = Some value ->
        get form_data key = Some value) /\
    (forall key,
        key <> "timestamp" -> get (form_items fields) key = None ->
        get form_data key = None).
Proof.
  rewrite submit_form_outcome. cbn [fst].
  eexists. eexists. split; [reflexivity|]. split; [reflexivity|].
  split.
  { rewrite relayed_data_items, set_keys, keys_normalised. reflexivity. }
  split; [apply of_pairs_keys_distinct|].
  split.
  { intro key. unfold form_items, items, of_pairs.
    assert (G : forall acc : dict string,
      In key (keys (fold_left (fun d kv => set d (fst kv) (snd kv)) fields acc))
      <-> In key (keys acc) \/ In key (map fst fields)).
    { induction fields as [|[k v] fs IH]; intro acc; simpl; [tauto|].
      rewrite IH, set_keys, in_app_iff.
      destruct (in_dec string_dec k (keys acc)); simpl; [|tauto].
      split; [tauto|]. intros [H|[H|H]]; try tauto. subst k. tauto. }
    rewrite G. simpl. tauto. }
  split.
  - intros key value Hk Hv Hget. rewrite relayed_data_get by exact Hk.
    rewrite Hget. cbn [option_map]. unfold nonempty.
    destruct (String.eqb value "") eqn:E; [|reflexivity].
    apply String.eqb_eq in E. contradiction.
  - intros key Hk Hget. rewrite relayed_data_get by exact Hk.
    rewrite Hget. reflexivity.
Qed.

(** X18: when the health report says that e-mail is not configured, no
    submission sends anything: whatever the request and whatever the SMTP
    server would do, the response has [email_sent] false and the outbox is
    unchanged. *)
Theorem health_check_predicts_no_mail
        (EMAIL_CONFIG : email_config) (GOOGLE_SHEET_ID : string) (now : datetime)
        (smtp : smtp_service) (clock : nat -> datetime)
        (fields : list (string * string)) (w : world) :
  get (health_check EMAIL_CONFIG GOOGLE_SHEET_ID now) "email_configured"
  = Some (JBool false) ->
  exists body,
    fst (submit_form EMAIL_CONFIG smtp clock (Returns fields) w) = Returns (OK body) /\
    get body "email_sent" = Some (JBool false) /\
    outbox (snd (submit_form EMAIL_CONFIG smtp clock (Returns fields) w)) = outbox w.
Proof.
  intro H. cbn in H. inversion H as [Hp]. clear H.
  rewrite submit_form_outcome. cbn [fst snd outbox].
  eexists. split; [reflexivity|].
  unfold completed, accepted. rewrite Hp. rewrite !andb_false_r. cbn [andb].
  rewrite app_nil_r. split; reflexivity.
Qed.

Definition no_password : email_config :=
  mkEmailConfig "smtp.gmail.com" 587 "office@example.com" "".

Lemma health_check_predicts_no_mail_witness :
  exists body,
    fst (submit_form no_password MailFacts.dropping_server MailFacts.noon
                     (Returns [("name", "Jo")]) (mkWorld 0 [] []))
    = Returns (OK body) /\
    get body "email_sent" = Some (JBool false) /\
    outbox (snd (submit_form no_password MailFacts.dropping_server MailFacts.noon
                             (Returns [("name", "Jo")]) (mkWorld 0 [] [])))
    = [].
Proof.
  apply (health_check_predicts_no_mail no_password "sheet-id" (MailFacts.noon 0)
           MailFacts.dropping_server MailFacts.noon [("name", "Jo")]
           (mkWorld 0 [] [])).
  reflexivity.
Defined.

Example submit_form_empty_subject :
  subject_line [("subject", ""); ("name", "Jo")] = "Not provided".
Proof. reflexivity. Qed.

End SubmitShape.

(** ** The market summary *)

Module SummaryFacts.
Import PyDict PyStr Indices IndicesFacts HttpSurface.

Lemma fetch_global_news_length news items :
  News.fetch_global_news news = Returns items -> (List.length items <= 5)%nat.
Proof.
  unfold News.fetch_global_news.
  destruct (news "^GSPC") as [articles|m]; cbn [bind try_except ret].
  - set (first_five := firstn 5). intro H. injection H as E. subst items.
    apply firstn_le_length.
  - intro H. injection H as E. subst items. simpl. lia.
Qed.

(** X19: market_summary answers with a body, never with the HTTP 500 of
    its handler, whatever the three services do.  The body says success,
    carries the time of the server, has the four index entries (each the
    entry fetch_indian_indices builds, never the empty object), the four
    lists of fetch_top_stocks for the global and the Indian queries, at
    most five rows each, at most five global news items, and at most one
    Indian news item per configured symbol. *)
Theorem market_summary_always_answers
        (get_data : list Screener.query_filter -> exc (list Screener.equity))
        (history : string -> exc data_frame)
        (news : string -> exc (list News.article))
        (now : FormRelay.datetime) :
  exists body,
    market_summary get_data history news now = SummaryOK body /\
    success body = true /\
    timestamp body = FormRelay.isoformat now /\
    keys (indian_indices (data body))
    = ["nifty"; "sensex"; "banknifty"; "midcap_nifty"] /\
    (forall index_name symbol,
        In (index_name, symbol) INDIAN_INDICES ->
        get (indian_indices (data body)) index_name
        = Some (Some (snapshot_for divide index_name symbol (history symbol)))) /\
    Screener.fetch_top_stocks get_data None true
    = Returns (top5_gainers_global (data body)) /\
    Screener.fetch_top_stocks get_data None false
    = Returns (top5_losers_global (data body)) /\
    Screener.fetch_top_stocks get_data (Some "in") true
    = Returns (top5_gainers_india (data body)) /\
    Screener.fetch_top_stocks get_data (Some "in") false
    = Returns (top5_losers_india (data body)) /\
    News.fetch_global_news news = Returns (global_news (data body)) /\
    News.fetch_indian_news news News.indian_symbols
    = Returns (india_news (data body)) /\
    (List.length (top5_gainers_global (data body)) <= 5)%nat /\
    (List.length (top5_losers_global (data body)) <= 5)%nat /\
    (List.length (top5_gainers_india (data body)) <= 5)%nat /\
    (List.length (top5_losers_india (data body)) <= 5)%nat /\
    (List.length (global_news (data body)) <= 5)%nat /\
    (List.length (india_news (data body)) <= 20)%nat.
Proof.
  unfold market_summary.
  rewrite fetch_indian_indices_entries.
  rewrite !ScreenerFacts.fetch_top_stocks_selected.
  rewrite NewsFacts.fetch_indian_news_returns.
  destruct (News.fetch_global_news news) as [items|m] eqn:Hnews.
  2:{ destruct (ErrorFacts.fetch_global_news_returns news) as (items & E).
      congruence. }
  cbn [bind ret].
  eexists. split; [reflexivity|].
  cbn [success timestamp data indian_indices top5_gainers_global
       top5_losers_global top5_gainers_india top5_losers_india
       global_news india_news].
  split; [reflexivity|]. split; [reflexivity|]. split; [reflexivity|].
  split.
  { intros index_name symbol Hin. simpl in Hin.
    destruct Hin as [H|[H|[H|[H|[]]]]]; inversion H; subst; reflexivity. }
  repeat (split; [reflexivity|]).
  repeat (split; [apply ScreenerFacts.selected_length|]).
  split.
  { apply (fetch_global_news_length news). exact Hnews. }
  apply (NewsShape.final_length news News.indian_symbols (News.mkState [] [] 0)).
Qed.

(** Services that are all down. *)
Definition screener_down (q : list Screener.query_filter)
  : exc (list Screener.equity) := Raises "unreachable".
Definition ticker_down {A} (symbol : string) : exc A := Raises "unreachable".

(** X20: when every request to every service raises, the summary is still
    a success body: four index entries that carry symbol and name, null in
    each of the five numeric fields and the status [error], and six empty
    lists. *)
Theorem market_summary_total_outage
        (get_data : list Screener.query_filter -> exc (list Screener.equity))
        (history : string -> exc data_frame)
        (news : string -> exc (list News.article))
        (now : FormRelay.datetime) :
  (forall q, raises (get_data q) = true) ->
  (forall s, raises (history s) = true) ->
  (forall s, raises (news s) = true) ->
  market_summary get_data history news now
  = SummaryOK
      (mkSummary true
         (mkMarketData
            [ ("nifty",
               Some (mkSnapshot "^NSEI" "Nifty" None None None None None error));
              ("sensex",
               Some (mkSnapshot "^BSESN" "Sensex" None None None None None error));
              ("banknifty",
               Some (mkSnapshot "^NSEBANK" "Banknifty"
                                None None None None None error));
              ("midcap_nifty",
               Some (mkSnapshot "NIFTYMIDCAP50.NS" "Midcap Nifty"
                                None None None None None error)) ]
            [] [] [] [] [] [])
         (FormRelay.isoformat now)).
Proof.
  intros Hq Hh Hn.
  assert (Hstocks : forall rf g, Screener.fetch_top_stocks get_data rf g = Returns []).
  { intros rf g. specialize (Hq (Screener.build_filters rf g)).
    destruct (get_data (Screener.build_filters rf g)) eqn:E; [discriminate Hq|].
    eapply ErrorFacts.fetch_top_stocks_on_raise. exact E. }
  assert (Hsnap : forall name symbol,
             snapshot_for divide name symbol (history symbol)
             = blank symbol name error).
  { intros name symbol. specialize (Hh symbol).
    destruct (history symbol); [discriminate Hh | reflexivity]. }
  assert (Hglobal : News.fetch_global_news news = Returns []).
  { unfold News.fetch_global_news. specialize (Hn "^GSPC").
    destruct (news "^GSPC"); [discriminate Hn | reflexivity]. }
  assert (Hindian : News.fetch_indian_news news News.indian_symbols = Returns []).
  { rewrite NewsFacts.fetch_indian_news_returns. unfold NewsFacts.final_state.
    rewrite ErrorFacts.all_raise_nothing_added; [reflexivity|].
    intros s _. apply Hn. }
  unfold market_summary.
  rewrite fetch_indian_indices_entries, !Hstocks, Hglobal, Hindian, !Hsnap.
  reflexivity.
Qed.

Lemma market_summary_total_outage_witness :
  market_summary screener_down ticker_down ticker_down (MailFacts.noon 0)
  = SummaryOK
      (mkSummary true
         (mkMarketData
            [ ("nifty",
               Some (mkSnapshot "^NSEI" "Nifty" None None None None None error));
              ("sensex",
               Some (mkSnapshot "^BSESN" "Sensex" None None None None None error));
              ("banknifty",
               Some (mkSnapshot "^NSEBANK" "Banknifty"
                                None None None None None error));
              ("midcap_nifty",
               Some (mkSnapshot "NIFTYMIDCAP50.NS" "Midcap Nifty"
                                None None None None None error)) ]
            [] [] [] [] [] [])
         (FormRelay.isoformat (MailFacts.noon 0))).
Proof.
  apply (market_summary_total_outage screener_down ticker_down ticker_down
           (MailFacts.noon 0)); intro; reflexivity.
Defined.

End SummaryFacts.
